(** * NeuralHydrology model zoo: the model factory and the GRU model

    A shallow embedding of the code shown in the tutorial notebook
    [examples/02-Adding-Models/adding-gru.ipynb]:

    - [get_model], the factory of [neuralhydrology.modelzoo], which picks a
      model class by the string [cfg.model];
    - the class [GRU] with its constructor [__init__] and its [forward]
      method;

    together with the sample run configuration (a YAML document).

    PyTorch and the parts of the model zoo that the notebook only calls
    ([InputLayer], [get_head], [BaseModel], the other model classes, the
    constant [SINGLE_FREQ_MODELS]) are interfaces here.  A call into them
    is recorded in a log; it runs on the store, may emit warnings, and
    either returns a value or raises an exception ([Library.t]).  A library
    whose calls always return and never warn ([Externals]) is the special
    case in which the statements about the data that flows through the
    code are made. *)

From Stdlib Require Import ZArith String List Floats.
From stdpp Require Import gmap strings list.

Open Scope string_scope.
Open Scope list_scope.

(** ** The run configuration *)

(** The keys of the configuration that the model section of the sample
    document defines, and the ones the notebook reads. *)
Module Config.
Record t : Type := mk {
  model : string;
  head : string;
  output_activation : string;
  hidden_size : Z;
  initial_forget_bias : Z;
  output_dropout : float;
  use_frequencies : list string;
  dynamic_inputs : list string;
  target_variables : list string;
  static_attributes : list string
}.

(** [cfg] with the key [model] set to [name]; used to compare two
    configurations that differ in the model identifier only. *)
Definition with_model (name : string) (cfg : t) : t :=
  {| model := name;
     head := head cfg;
     output_activation := output_activation cfg;
     hidden_size := hidden_size cfg;
     initial_forget_bias := initial_forget_bias cfg;
     output_dropout := output_dropout cfg;
     use_frequencies := use_frequencies cfg;
     dynamic_inputs := dynamic_inputs cfg;
     target_variables := target_variables cfg;
     static_attributes := static_attributes cfg |}.

Definition with_use_frequencies (freqs : list string) (cfg : t) : t :=
  {| model := model cfg;
     head := head cfg;
     output_activation := output_activation cfg;
     hidden_size := hidden_size cfg;
     initial_forget_bias := initial_forget_bias cfg;
     output_dropout := output_dropout cfg;
     use_frequencies := freqs;
     dynamic_inputs := dynamic_inputs cfg;
     target_variables := target_variables cfg;
     static_attributes := static_attributes cfg |}.
End Config.

(** The sample configuration document (model section, frequencies and data
  section). *)
Definition sample_cfg : Config.t :=
{| Config.model := "mtslstm";
   Config.head := "regression";
   Config.output_activation := "linear";
   Config.hidden_size := 16;
   Config.initial_forget_bias := 3;
   Config.output_dropout := 0x1.999999999999ap-2%float;   (* 0.4 *)
   Config.use_frequencies := ["1D"; "1h"];
   Config.dynamic_inputs := ["total_precipitation"; "temperature"];
   Config.target_variables := ["qobs_mm_per_hour"];
   Config.static_attributes := ["elev_mean"; "slope_mean"] |}.

(** ** Exceptions, warnings and model classes *)

(** The exception classes [get_model] raises itself, and what the code it
    calls may raise. *)
Inductive Exception : Type :=
| ValueError (msg : string)
| NotImplementedError (msg : string)
| RuntimeError (msg : string)
| OtherError (class_name msg : string).

(** The warning category [get_model] uses itself, and what the code it
    calls may use. *)
Inductive WarningCategory : Type :=
| FutureWarning
| OtherWarning (class_name : string).

(** The classes [get_model] can instantiate. *)
Inductive ModelClass : Type :=
| CudaLSTM | EALSTM | CustomLSTM | GRU | EmbCudaLSTM | MTSLSTM | ODELSTM.

#[export] Instance ModelClass_eq_dec : EqDecision ModelClass.
Proof. solve_decision. Defined.

(** ** The tensor library *)

(** What the code needs to know of [torch]: tensors with a shape and
  [Tensor.transpose], the parameters a module object owns, and the state
  the library keeps for itself (random number generator, training mode). *)
Class Torch : Type := {
Tensor : Type;
shape : Tensor → list nat;
transpose : nat → nat → Tensor → Tensor;
Weights : Type;
LibState : Type
}.

(** [torch.nn]: the module objects the GRU model creates.  An object keeps
  the arguments it was created with, as the PyTorch classes do. *)
Module nn.
Section nn.
Context `{Torch}.

Record GRU : Type := mkGRU {
  input_size : Z;
  hidden_size : Z;
  weights : Weights
}.

Record Dropout : Type := mkDropout {
    p : float
  }.
End nn.
End nn.

(** [neuralhydrology.modelzoo.inputlayer.InputLayer]: only its attribute
  [output_size] is read by the notebook. *)
Module InputLayer.
Section InputLayer.
Context `{Torch}.

Record t : Type := mk {
    output_size : Z;
    weights : Weights
  }.
End InputLayer.
End InputLayer.

(** The module returned by [neuralhydrology.modelzoo.head.get_head], with
  the widths it was asked for. *)
Module Head.
Section Head.
Context `{Torch}.

Record t : Type := mk {
    n_in : Z;
    n_out : Z;
    weights : Weights
  }.
End Head.
End Head.

(** A value of the input dictionary [data]: a tensor (['x_s'],
  ['x_one_hot']) or a dictionary of tensors (['x_d']). *)
Inductive DataValue `{Torch} : Type :=
| tensor (x : Tensor)
| tensor_dict (d : gmap string Tensor).

(** ** The store and the log *)

(** Every component receives the same [Config] object by reference: the
  store holds that one object, and whatever the library keeps. *)
Record Heap `{Torch} : Type := mkHeap {
cfg_obj : Config.t;
lib : LibState
}.

(** A call into code outside the notebook that returns: it runs on the
    store and gives a value. *)
Definition Ext `{Torch} (A : Type) : Type := Heap → Heap * A.

(** The calls that are logged, with their arguments. *)
Inductive Call `{Torch} : Type :=
| NewModel (cls : ModelClass)                 (* Cls(cfg=cfg) *)
| BaseModelInit                               (* super().__init__(cfg=cfg) *)
| NewInputLayer                               (* InputLayer(cfg) *)
| NewGRU (input_size hidden_size : Z)         (* nn.GRU(input_size=.., hidden_size=..) *)
| NewDropout (p : float)                      (* nn.Dropout(p=..) *)
| GetHead (n_in n_out : Z)                    (* get_head(cfg=cfg, n_in=.., n_out=..) *)
| EmbeddingNet (data : gmap string DataValue) (concatenate_output : bool)
                                            (* self.embedding_net(data, concatenate_output=..) *)
| RunGRU (input : Tensor)                     (* self.gru(input=..) *)
| RunDropout (x : Tensor)                     (* self.dropout(..) *)
| RunHead (x : Tensor).                       (* self.head(..) *)

Inductive Event `{Torch} : Type :=
| Warn (category : WarningCategory) (message : string)
| Called (c : Call).

Record World `{Torch} : Type := mkWorld {
heap : Heap;
log : list Event
}.

(** ** The monad of the embedding: state, log and exceptions *)

Inductive result (A : Type) : Type :=
| Ok (a : A)
| Raise (e : Exception).
Arguments Ok {A} a.
Arguments Raise {A} e.

Definition M `{Torch} (A : Type) : Type := World → World * result A.

#[export] Instance result_fmap : FMap result := λ A B f r,
  match r with
  | Ok a => Ok (f a)
  | Raise e => Raise e
  end.

(** What a call into code outside the notebook does: the store it leaves,
    the warnings it emitted, and the value it returns or the exception it
    raises. *)
Record Outcome `{Torch} (A : Type) : Type := mkOutcome {
  store : Heap;
  warned : list (WarningCategory * string);
  value : result A
}.
Arguments mkOutcome {_ A} store warned value.
Arguments store {_ A} _.
Arguments warned {_ A} _.
Arguments value {_ A} _.

Definition Lib `{Torch} (A : Type) : Type := Heap → Outcome A.

(** A call that returns and emits no warning. *)
Definition returns `{Torch} {A} (f : Ext A) : Lib A :=
  λ h, let '(h', a) := f h in mkOutcome h' [] (Ok a).

Section Monad.
Context `{Torch}.

#[export] Instance M_ret : MRet M := λ A a w, (w, Ok a).

#[export] Instance M_bind : MBind M := λ A B k m w,
  match m w with
  | (w', Ok a) => k a w'
  | (w', Raise e) => (w', Raise e)
  end.

(** [raise e]: the statement [raise e]. *)
Definition raise {A} (e : Exception) : M A := λ w, (w, Raise e).

(** [warnings.warn(message, category)]: logged, and execution goes on. *)
Definition warnings_warn (message : string) (category : WarningCategory) : M unit :=
  λ w, ({| heap := heap w; log := log w ++ [Warn category message] |}, Ok tt).

(** [cfg.attr]: read an attribute of the shared configuration object. *)
Definition cfg_attr {A} (attr : Config.t → A) : M A :=
  λ w, (w, Ok (attr (cfg_obj (heap w)))).

(** A logged call into code outside the notebook: the log gains the call
    and the warnings it emitted, and its exception, if any, is raised
    here. *)
Definition call {A} (c : Call) (f : Lib A) : M A :=
  λ w, let o := f (heap w) in
       ({| heap := store o;
           log := log w ++ Called c :: (uncurry Warn <$> warned o) |},
        value o).

(** A logged step of code that is modelled here. *)
Definition enter (c : Call) : M unit :=
  λ w, ({| heap := heap w; log := log w ++ [Called c] |}, Ok tt).
End Monad.

(** ** Code outside the notebook *)

Module BaseModel.
Section BaseModel.
Context `{Torch}.

(** The attributes [BaseModel.__init__] sets that the notebook reads. *)
Record t : Type := mk {
  output_size : Z
}.

(** Modelled from the spec: [BaseModel.__init__] of
    [neuralhydrology.modelzoo.basemodel] is not part of the notebook, which
    only reads the attribute [output_size] it sets.  The spec sizes the
    output head by "the number of target variables": this constructor sets
    [output_size] to the number of entries of [cfg.target_variables].  It
    is the base class of a library whose calls return ([returning]). *)
Definition spec_init : Ext t :=
  λ h, (h, {| output_size := Z.of_nat (length (Config.target_variables (cfg_obj h))) |}).
End BaseModel.
End BaseModel.

(** The constant and the callables that the notebook uses and does not
    define.  [SINGLE_FREQ_MODELS] is a module constant of
    [neuralhydrology.modelzoo]; [model_init cls] is the constructor of a
    model class other than [GRU]; [BaseModel_init] is the constructor of
    the base class; the others are the constructors and the [forward]
    methods of the objects a [GRU] model is made of.  Each call may warn
    and may raise. *)
Module Library.
Class t `{Torch} : Type := {
  SINGLE_FREQ_MODELS : list string;
  model_init : ModelClass → Lib Weights;
  BaseModel_init : Lib BaseModel.t;
  InputLayer_init : Lib InputLayer.t;
  InputLayer_forward : InputLayer.t → gmap string DataValue → bool → Lib Tensor;
  nn_GRU_init : Z → Z → Lib Weights;
  nn_GRU_forward : nn.GRU → Tensor → Lib (Tensor * Tensor);
  nn_Dropout_init : float → Lib unit;
  nn_Dropout_forward : nn.Dropout → Tensor → Lib Tensor;
  get_head_init : Z → Z → Lib Weights;
  Head_forward : Head.t → Tensor → Lib (gmap string Tensor)
}.
End Library.

(** A library whose calls always return and emit no warning: the constant
    and, for each callable, the value it returns and the store it
    leaves. *)
Class Externals `{Torch} : Type := {
  SINGLE_FREQ_MODELS : list string;
  model_init : ModelClass → Ext Weights;
  InputLayer_init : Ext InputLayer.t;
  InputLayer_forward : InputLayer.t → gmap string DataValue → bool → Ext Tensor;
  nn_GRU_init : Z → Z → Ext Weights;
  nn_GRU_forward : nn.GRU → Tensor → Ext (Tensor * Tensor);
  nn_Dropout_forward : nn.Dropout → Tensor → Ext Tensor;
  get_head_init : Z → Z → Ext Weights;
  Head_forward : Head.t → Tensor → Ext (gmap string Tensor)
}.

(** Such a library as a [Library.t]; its base class is [BaseModel.spec_init]
    and its [nn.Dropout] accepts every rate. *)
#[export] Instance returning `{Externals} : Library.t :=
  {| Library.SINGLE_FREQ_MODELS := SINGLE_FREQ_MODELS;
     Library.model_init := λ cls, returns (model_init cls);
     Library.BaseModel_init := returns BaseModel.spec_init;
     Library.InputLayer_init := returns InputLayer_init;
     Library.InputLayer_forward := λ self data concatenate_output,
       returns (InputLayer_forward self data concatenate_output);
     Library.nn_GRU_init := λ input_size hidden_size,
       returns (nn_GRU_init input_size hidden_size);
     Library.nn_GRU_forward := λ self x, returns (nn_GRU_forward self x);
     Library.nn_Dropout_init := λ _, returns (λ h, (h, tt));
     Library.nn_Dropout_forward := λ self x, returns (nn_Dropout_forward self x);
     Library.get_head_init := λ n_in n_out, returns (get_head_init n_in n_out);
     Library.Head_forward := λ self x, returns (Head_forward self x) |}.

Coercion returning : Externals >-> Library.t.

Section Constructors.
Context `{Library.t}.

(** [super(GRU, self).__init__(cfg=cfg)] *)
Definition BaseModel___init__ : M BaseModel.t :=
  call BaseModelInit Library.BaseModel_init.

(** [InputLayer(cfg)] *)
Definition new_InputLayer : M InputLayer.t :=
  call NewInputLayer Library.InputLayer_init.

(** [nn.GRU(input_size=input_size, hidden_size=hidden_size)] *)
Definition new_nn_GRU (input_size hidden_size : Z) : M nn.GRU :=
  weights ← call (NewGRU input_size hidden_size)
                 (Library.nn_GRU_init input_size hidden_size);
  mret (nn.mkGRU input_size hidden_size weights).

(** [nn.Dropout(p=p)]: the layer has no parameters. *)
Definition new_nn_Dropout (p : float) : M nn.Dropout :=
  call (NewDropout p) (Library.nn_Dropout_init p);;
  mret (nn.mkDropout p).

(** [get_head(cfg=cfg, n_in=n_in, n_out=n_out)] *)
Definition get_head (n_in n_out : Z) : M Head.t :=
  weights ← call (GetHead n_in n_out) (Library.get_head_init n_in n_out);
  mret (Head.mk n_in n_out weights).

(** [d.update(other)]: the entries of [other] are written into [d]; on a
    key both have, the value of [other] stays. *)
Definition dict_update {V} (d other : gmap string V) : gmap string V :=
  other ∪ d.
End Constructors.

(** ** The GRU model *)

Module GRU.
Section GRU.
Context `{Library.t}.

(** The attributes of a [GRU] object: the ones [BaseModel] sets, and the
    four sub-modules its own constructor assigns. *)
Record t : Type := mk {
  base : BaseModel.t;
  embedding_net : InputLayer.t;
  gru : nn.GRU;
  dropout : nn.Dropout;
  head : Head.t
}.

(** [self.output_size] *)
Definition output_size (self : t) : Z := BaseModel.output_size (base self).

(** Sub-modules of the model that can later be used for finetuning; the
    names match class attributes. *)
Definition module_parts : list string := ["embedding_net"; "gru"; "head"].

Inductive Submodule : Type :=
| an_InputLayer (m : InputLayer.t)
| a_GRU (m : nn.GRU)
| a_Dropout (m : nn.Dropout)
| a_Head (m : Head.t).

(** [getattr(self, name)] on the sub-module attributes. *)
Definition getattr (self : t) (name : string) : option Submodule :=
  if String.eqb name "embedding_net" then Some (an_InputLayer (embedding_net self))
  else if String.eqb name "gru" then Some (a_GRU (gru self))
  else if String.eqb name "dropout" then Some (a_Dropout (dropout self))
  else if String.eqb name "head" then Some (a_Head (head self))
  else None.

Definition __init__ : M t :=
  base ← BaseModel___init__;
  (* retrieve the input layer *)
  embedding_net ← new_InputLayer;
  (* create the actual GRU *)
  hidden_size ← cfg_attr Config.hidden_size;
  gru ← new_nn_GRU (InputLayer.output_size embedding_net) hidden_size;
  (* add dropout between GRU and head *)
  output_dropout ← cfg_attr Config.output_dropout;
  dropout ← new_nn_Dropout output_dropout;
  (* retrieve the model head *)
  hidden_size ← cfg_attr Config.hidden_size;
  head ← get_head hidden_size (BaseModel.output_size base);
  mret {| base := base; embedding_net := embedding_net; gru := gru;
          dropout := dropout; head := head |}.

Definition forward (self : t) (data : gmap string DataValue) : M (gmap string Tensor) :=
  (* possibly pass dynamic and static inputs through embedding layers, then concatenate them *)
  x_d ← call (EmbeddingNet data true)
             (Library.InputLayer_forward (embedding_net self) data true);
  (* run the actual GRU *)
  '(gru_output, h_n) ← call (RunGRU x_d) (Library.nn_GRU_forward (gru self) x_d);
  (* reshape to [batch_size, 1, n_hiddens] *)
  let h_n := transpose 0 1 h_n in
  let pred : gmap string Tensor := {[ "h_n" := h_n ]} in
  (* add the final output as it's returned by the head to the prediction dict *)
  (* (this will contain the 'y_hat') *)
  let x := transpose 0 1 gru_output in
  dropped ← call (RunDropout x) (Library.nn_Dropout_forward (dropout self) x);
  other ← call (RunHead dropped) (Library.Head_forward (head self) dropped);
  let pred := dict_update pred other in
  mret pred.
End GRU.
End GRU.

(** ** The model factory *)

Section get_model.
Context `{Library.t}.

(** What [get_model] returns: an object of one of the model classes. *)
Inductive Model : Type :=
| instance (cls : ModelClass) (weights : Weights)
| GRU_instance (self : GRU.t).

Definition class_of (model : Model) : ModelClass :=
  match model with
  | instance cls _ => cls
  | GRU_instance _ => GRU
  end.

(** [Cls(cfg=cfg)].  The class [GRU] of the model zoo is the one the
    notebook builds; the other classes are not shown and are represented by
    their constructor [model_init]. *)
Definition new (cls : ModelClass) : M Model :=
  match cls with
  | GRU =>
      enter (NewModel GRU);;
      self ← GRU.__init__;
      mret (GRU_instance self)
  | _ =>
      weights ← call (NewModel cls) (Library.model_init cls);
      mret (instance cls weights)
  end.

(** [x in l] on a list of strings. *)
Definition str_in (x : string) (l : list string) : bool :=
  existsb (String.eqb x) l.

(** The parameter [cfg] is the reference to the shared configuration
    object.  Nothing runs between the reads of [cfg.model] and
    [cfg.use_frequencies] below, so the object is read once. *)
Definition get_model : M Model :=
  cfg ← cfg_attr id;
  if str_in (Config.model cfg) Library.SINGLE_FREQ_MODELS
     && (1 <? length (Config.use_frequencies cfg))%nat then
    raise (ValueError ("Model " +:+ Config.model cfg +:+ " does not support multiple frequencies."))
  else
  if String.eqb (Config.model cfg) "cudalstm" then
    new CudaLSTM
  else if String.eqb (Config.model cfg) "ealstm" then
    new EALSTM
  else if String.eqb (Config.model cfg) "customlstm" then
    new CustomLSTM
  else if String.eqb (Config.model cfg) "lstm" then
    warnings_warn
      "The `LSTM` class has been renamed to `CustomLSTM`. Support for `LSTM` will we dropped in the future."
      FutureWarning;;
    new CustomLSTM
  else if String.eqb (Config.model cfg) "gru" then
    new GRU
  else if String.eqb (Config.model cfg) "embcudalstm" then
    new EmbCudaLSTM
  else if String.eqb (Config.model cfg) "mtslstm" then
    new MTSLSTM
  else if String.eqb (Config.model cfg) "odelstm" then
    new ODELSTM
  else
    raise (NotImplementedError (Config.model cfg +:+ " not implemented or not linked in `get_model()`")).
End get_model.

(** ** Vocabulary of the specification *)

(** The identifiers the factory has a branch for, in the order of the
    branches. *)
Definition supported_models : list string :=
  ["cudalstm"; "ealstm"; "customlstm"; "lstm"; "gru"; "embcudalstm"; "mtslstm"; "odelstm"].

(** The type matched to an identifier; the deprecated name ["lstm"] stands
    for its replacement. *)
Definition matched_class (name : string) : option ModelClass :=
  (list_to_map
     [("cudalstm", CudaLSTM); ("ealstm", EALSTM); ("customlstm", CustomLSTM);
      ("lstm", CustomLSTM); ("gru", GRU); ("embcudalstm", EmbCudaLSTM);
      ("mtslstm", MTSLSTM); ("odelstm", ODELSTM)] : gmap string ModelClass) !! name.

Section Vocabulary.
Context `{Externals}.

(** The configuration names a single-frequency model and declares more than
    one frequency: the condition of the first statement of [get_model]. *)
Definition multiple_frequencies_refused (cfg : Config.t) : Prop :=
  Config.model cfg ∈ SINGLE_FREQ_MODELS ∧ (length (Config.use_frequencies cfg) > 1)%nat.

(** The run of [w] under a configuration that names the model [name] and
    is the same otherwise. *)
Definition with_model (name : string) (w : World) : World :=
  {| heap := {| cfg_obj := Config.with_model name (cfg_obj (heap w));
                lib := lib (heap w) |};
     log := log w |}.

(** The message of the deprecation warning. *)
Definition deprecation_message : string :=
  "The `LSTM` class has been renamed to `CustomLSTM`. Support for `LSTM` will we dropped in the future.".


(** An input batch whose dynamic inputs (the dictionary under ['x_d']) are
    tensors of shape [[batch size, sequence length, features]]. *)
Definition batch_dims (data : gmap string DataValue) (batch_size seq_length : nat) : Prop :=
  ∃ x_d : gmap string Tensor,
    data !! "x_d" = Some (tensor_dict x_d) ∧ x_d ≠ ∅ ∧
    map_Forall (λ _ x, ∃ features, shape x = [batch_size; seq_length; features]) x_d.

(** The constructors outside the notebook only read the configuration. *)
Class ConfigReadOnly : Prop := {
  model_init_cfg : ∀ cls h, cfg_obj (model_init cls h).1 = cfg_obj h;
  InputLayer_init_cfg : ∀ h, cfg_obj (InputLayer_init h).1 = cfg_obj h;
  nn_GRU_init_cfg : ∀ i n h, cfg_obj (nn_GRU_init i n h).1 = cfg_obj h;
  get_head_init_cfg : ∀ i o h, cfg_obj (get_head_init i o h).1 = cfg_obj h
}.

(** The shapes [torch] works on, as its documentation gives them:
    [transpose 0 1] swaps the first two dimensions; [nn.GRU] (sequence
    first) maps an input [[L, N, input_size]] to an output
    [[L, N, hidden_size]] and a final hidden state [[1, N, hidden_size]];
    [nn.Dropout] keeps the shape. *)
Class TorchShapes : Prop := {
  transpose_shape : ∀ x a b rest,
    shape x = a :: b :: rest → shape (transpose 0 1 x) = b :: a :: rest;
  nn_GRU_shape : ∀ self x L N features h,
    shape x = [L; N; features] →
    shape (nn_GRU_forward self x h).2.1 = [L; N; Z.to_nat (nn.hidden_size self)] ∧
    shape (nn_GRU_forward self x h).2.2 = [1; N; Z.to_nat (nn.hidden_size self)]%nat;
  nn_Dropout_shape : ∀ self x h,
    shape (nn_Dropout_forward self x h).2 = shape x
}.

(** Modelled from the spec: [InputLayer] and the head returned by
    [get_head] are classes of the model zoo that the notebook only calls.
    The input layer "merges the static inputs to each step of the dynamic
    inputs and returns a single tensor that we can pass to the GRU cell",
    sequence first; the head is the "final transformation mapping hidden
    representation to the predicted target": it maps every time step of its
    input and returns the prediction under ['y_hat']. *)
Class ZooShapes : Prop := {
  InputLayer_shape : ∀ self data N L h,
    batch_dims data N L →
    shape (InputLayer_forward self data true h).2
      = [L; N; Z.to_nat (InputLayer.output_size self)];
  Head_shape : ∀ self x N L features h,
    shape x = [N; L; features] →
    ∃ y_hat, (Head_forward self x h).2 !! "y_hat" = Some y_hat ∧
             shape y_hat = [N; L; Z.to_nat (Head.n_out self)]
}.
End Vocabulary.

(** ** A sample library

    A small instance of the interfaces, on which the definitions run: a
    tensor is represented by its shape, and the library state counts the
    random draws (parameter initialisation, dropout masks). *)

Definition swap_dims (i j : nat) (s : list nat) : list nat :=
  match s !! i, s !! j with
  | Some a, Some b => <[i := b]> (<[j := a]> s)
  | _, _ => s
  end.

Definition shapes_only : Torch :=
  {| Tensor := list nat;
     shape := id;
     transpose := swap_dims;
     Weights := unit;
     LibState := nat |}.

Definition draw {A} (a : A) : @Ext shapes_only A :=
  λ h, (@mkHeap shapes_only (cfg_obj h) (S (lib h)), a).

Definition sample_InputLayer_init : @Ext shapes_only (@InputLayer.t shapes_only) :=
  λ h, draw (@InputLayer.mk shapes_only
               (Z.of_nat (length (Config.dynamic_inputs (cfg_obj h))
                          + length (Config.static_attributes (cfg_obj h))))
               tt) h.

Definition sample_InputLayer_forward (self : @InputLayer.t shapes_only)
    (data : gmap string (@DataValue shapes_only)) (concatenate_output : bool)
    : @Ext shapes_only (list nat) :=
  λ h, (h, match data !! "x_d" with
           | Some (tensor_dict x_d) =>
               match map_to_list x_d with
               | (_, [N; L; _]) :: _ => [L; N; Z.to_nat (InputLayer.output_size self)]
               | _ => []
               end
           | _ => []
           end).

Definition sample_nn_GRU_forward (self : @nn.GRU shapes_only) (x : list nat)
    : @Ext shapes_only (list nat * list nat) :=
  λ h, (h, match x with
           | [L; N; _] => ([L; N; Z.to_nat (nn.hidden_size self)],
                           [1%nat; N; Z.to_nat (nn.hidden_size self)])
           | _ => ([], [])
           end).

(** The head of the sample library returns ['y_hat'] and, when [extra] is
    given, a second entry under that key. *)
Definition sample_Head_forward (extra : option string) (self : @Head.t shapes_only)
    (x : list nat) : @Ext shapes_only (gmap string (list nat)) :=
  λ h, (h, let y_hat := match x with
                        | [N; L; _] => [N; L; Z.to_nat (Head.n_out self)]
                        | _ => []
                        end in
           match extra with
           | Some key => <[key := [7%nat]]> {[ "y_hat" := y_hat ]}
           | None => {[ "y_hat" := y_hat ]}
           end).

Definition sample_library (single_freq_models : list string) (extra : option string)
    : @Externals shapes_only :=
  {| SINGLE_FREQ_MODELS := single_freq_models;
     model_init := λ _, draw tt;
     InputLayer_init := sample_InputLayer_init;
     InputLayer_forward := sample_InputLayer_forward;
     nn_GRU_init := λ _ _, draw tt;
     nn_GRU_forward := sample_nn_GRU_forward;
     nn_Dropout_forward := λ _ x, draw x;
     get_head_init := λ _ _, draw tt;
     Head_forward := sample_Head_forward extra |}.

(** Modelled from the spec: [SINGLE_FREQ_MODELS] is defined in
    [neuralhydrology.modelzoo], outside the notebook; the spec calls its
    members the models "requiring single-frequency input".  Where a value is
    needed, the sample is the identifiers of the factory other than the
    multi-timescale models MTS-LSTM and ODE-LSTM, under their current
    names. *)
Definition single_freq_current : list string :=
  ["cudalstm"; "ealstm"; "customlstm"; "embcudalstm"; "gru"].

(** A run that starts with the configuration [cfg] and an empty log. *)
Definition start (cfg : Config.t) : @World shapes_only :=
  @mkWorld shapes_only (@mkHeap shapes_only cfg 0%nat) [].

(** A batch of 256 samples over 30 time steps: the two dynamic inputs of
    the sample configuration, and its two static features. *)
Definition sample_batch : gmap string (@DataValue shapes_only) :=
  {[ "x_d" := @tensor_dict shapes_only
                {[ "total_precipitation" := [256; 30; 1]%nat;
                   "temperature" := [256; 30; 1]%nat ]};
     "x_s" := @tensor shapes_only [256; 2]%nat ]}.

(** The sample library with the current names in [SINGLE_FREQ_MODELS] and a
    head that returns ['y_hat'] only. *)
Definition sample_zoo : @Externals shapes_only :=
  sample_library single_freq_current None.

(** The sample configuration for a GRU on the daily frequency. *)
Definition gru_cfg : Config.t :=
  Config.with_use_frequencies ["1D"] (Config.with_model "gru" sample_cfg).

(** The sample configuration under the deprecated identifier, on the daily
    frequency. *)
Definition lstm_cfg : Config.t :=
  Config.with_use_frequencies ["1D"] (Config.with_model "lstm" sample_cfg).

(** The [GRU] object that the constructor builds from [gru_cfg] in the
    sample library. *)
Definition sample_GRU : @GRU.t shapes_only :=
  {| GRU.base := @BaseModel.mk 1;
     GRU.embedding_net := @InputLayer.mk shapes_only 4 tt;
     GRU.gru := @nn.mkGRU shapes_only 4 16 tt;
     GRU.dropout := nn.mkDropout 0x1.999999999999ap-2%float;
     GRU.head := @Head.mk shapes_only 16 1 tt |}.

(** ** What a run leaves in the log and in the store *)

Section Observations.
Context `{Externals}.

(** A warning was emitted. *)
Definition is_warning (ev : Event) : bool :=
  match ev with
  | Warn _ _ => true
  | _ => false
  end.

(** A model class was instantiated. *)
Definition is_new_model (ev : Event) : bool :=
  match ev with
  | Called (NewModel _) => true
  | _ => false
  end.

(** The [forward] methods of the sub-modules only read the configuration. *)
Class ForwardReadOnly : Prop := {
  InputLayer_forward_cfg : ∀ self data concatenate_output h,
    cfg_obj (InputLayer_forward self data concatenate_output h).1 = cfg_obj h;
  nn_GRU_forward_cfg : ∀ self x h, cfg_obj (nn_GRU_forward self x h).1 = cfg_obj h;
  nn_Dropout_forward_cfg : ∀ self x h, cfg_obj (nn_Dropout_forward self x h).1 = cfg_obj h;
  Head_forward_cfg : ∀ self x h, cfg_obj (Head_forward self x h).1 = cfg_obj h
}.
End Observations.

(** The sample configuration under the replacement identifier, on the daily
    frequency. *)
Definition customlstm_cfg : Config.t :=
  Config.with_use_frequencies ["1D"] (Config.with_model "customlstm" sample_cfg).

(** ** Vocabulary for a library whose calls can fail *)

Section LibraryVocabulary.
Context `{Library.t}.

(** The condition of the first statement of [get_model]: the configuration
    names a member of [SINGLE_FREQ_MODELS] and declares more than one
    frequency. *)
Definition frequency_check_refuses (cfg : Config.t) : Prop :=
  Config.model cfg ∈ Library.SINGLE_FREQ_MODELS ∧
  (length (Config.use_frequencies cfg) > 1)%nat.

(** What a call leaves in the log: the call, then the warnings it
    emitted. *)
Definition entries {A} (c : Call) (o : Outcome A) : list Event :=
  Called c :: (uncurry Warn <$> warned o).

(** The world after [warnings.warn(message, category)]. *)
Definition warned_world (category : WarningCategory) (message : string) (w : World) : World :=
  {| heap := heap w; log := log w ++ [Warn category message] |}.

(** The computation only appends to the log. *)
Definition appends {A} (m : M A) : Prop :=
  ∀ w, ∃ added, log (m w).1 = log w ++ added.

(** The constructors of the base class and of the sub-modules leave the
    configuration as it is, whether they return or raise. *)
Class ConstructorsReadOnly : Prop := {
  BaseModel_init_keeps : ∀ h, cfg_obj (store (Library.BaseModel_init h)) = cfg_obj h;
  InputLayer_init_keeps : ∀ h, cfg_obj (store (Library.InputLayer_init h)) = cfg_obj h;
  nn_GRU_init_keeps : ∀ i n h, cfg_obj (store (Library.nn_GRU_init i n h)) = cfg_obj h;
  nn_Dropout_init_keeps : ∀ p h, cfg_obj (store (Library.nn_Dropout_init p h)) = cfg_obj h
}.

(** The constructors of the other model classes and [get_head] leave the
    configuration as it is, whether they return or raise. *)
Class FactoryReadOnly : Prop := {
  model_init_keeps : ∀ cls h, cfg_obj (store (Library.model_init cls h)) = cfg_obj h;
  get_head_init_keeps : ∀ i o h, cfg_obj (store (Library.get_head_init i o h)) = cfg_obj h
}.

(** The computation leaves the configuration object as it is, whatever its
    outcome. *)
Definition keeps_configuration {A} (m : M A) : Prop :=
  ∀ w, cfg_obj (heap (m w).1) = cfg_obj (heap w).
End LibraryVocabulary.

(** ** A sample library whose calls can fail

    The sample library, with a few of the failures and warnings of the
    code outside the notebook: the constructor of [MTSLSTM] raises a
    [ValueError] on a configuration with fewer than two frequencies, the
    one of [EmbCudaLSTM] emits a [FutureWarning], the recurrent core raises
    on an empty sequence, and the base class reserves two outputs per
    target variable for the head ["umal"].  The texts of the messages are
    the sample's own. *)

Definition raises `{Torch} {A} (e : Exception) : Lib A :=
  λ h, mkOutcome h [] (Raise e).

Definition fallible_model_init (cls : ModelClass) : @Lib shapes_only unit :=
  λ h, match cls with
       | MTSLSTM =>
           if (length (Config.use_frequencies (cfg_obj h)) <? 2)%nat
           then raises (ValueError "MTSLSTM expects more than one input frequency") h
           else returns (draw tt) h
       | EmbCudaLSTM =>
           mkOutcome (draw tt h).1
             [(FutureWarning, "EmbCudaLSTM is deprecated, use CudaLSTM")] (Ok tt)
       | _ => returns (draw tt) h
       end.

Definition fallible_BaseModel_init : @Lib shapes_only (@BaseModel.t) :=
  λ h, let targets := Z.of_nat (length (Config.target_variables (cfg_obj h))) in
       mkOutcome h []
         (Ok (BaseModel.mk (if String.eqb (Config.head (cfg_obj h)) "umal"
                            then 2 * targets else targets)%Z)).

Definition fallible_nn_GRU_forward (self : @nn.GRU shapes_only) (x : list nat)
    : @Lib shapes_only (list nat * list nat) :=
  λ h, match x with
       | 0%nat :: _ => raises (RuntimeError "Expected sequence length to be larger than 0 in RNN") h
       | _ => returns (sample_nn_GRU_forward self x) h
       end.

Definition fallible_library : @Library.t shapes_only :=
  {| Library.SINGLE_FREQ_MODELS := single_freq_current;
     Library.model_init := fallible_model_init;
     Library.BaseModel_init := fallible_BaseModel_init;
     Library.InputLayer_init := returns sample_InputLayer_init;
     Library.InputLayer_forward := λ self data concatenate_output,
       returns (sample_InputLayer_forward self data concatenate_output);
     Library.nn_GRU_init := λ _ _, returns (draw tt);
     Library.nn_GRU_forward := fallible_nn_GRU_forward;
     Library.nn_Dropout_init := λ _, returns (λ h, (h, tt));
     Library.nn_Dropout_forward := λ _ x, returns (draw x);
     Library.get_head_init := λ _ _, returns (draw tt);
     Library.Head_forward := λ self x, returns (sample_Head_forward None self x) |}.

(** A batch of 256 samples with an empty sequence. *)
Definition empty_sequence_batch : gmap string (@DataValue shapes_only) :=
  {[ "x_d" := @tensor_dict shapes_only
                {[ "total_precipitation" := [256; 0; 1]%nat;
                   "temperature" := [256; 0; 1]%nat ]} ]}.

(** The sample configuration for MTS-LSTM on the daily frequency only. *)
Definition mtslstm_daily_cfg : Config.t :=
  Config.with_use_frequencies ["1D"] sample_cfg.


(** [SINGLE_FREQ_MODELS] with an identifier the factory has no branch
    for. *)
Definition single_freq_with_transformer : list string :=
  single_freq_current ++ ["transformer"].

(** * Properties *)

Ltac run_M :=
  unfold mbind, M_bind, mret, M_ret, raise, call, enter, cfg_attr, warnings_warn;
  simpl; unfold returns; simpl.

Ltac split_calls :=
  repeat match goal with
         | |- context [match ?c with (_, _) => _ end] =>
             lazymatch c with
             | context [match _ with (_, _) => _ end] => fail
             | _ => destruct c eqn:?; simpl
             end
         end.

(** ** Equations of the embedded code *)

Section Facts.
Context `{Externals}.

Lemma str_in_spec (x : string) (l : list string) : str_in x l = true ↔ x ∈ l.
Proof.
  unfold str_in. rewrite existsb_exists. split.
  - intros (y & Hy & Heq). apply String.eqb_eq in Heq. subst y.
    by apply list_elem_of_In.
  - intros Hx. exists x. split; [by apply list_elem_of_In | apply String.eqb_refl].
Qed.

Lemma str_in_false (x : string) (l : list string) : str_in x l = false ↔ x ∉ l.
Proof.
  rewrite <- str_in_spec. destruct (str_in x l); split; congruence.
Qed.

Lemma frequency_check_spec (cfg : Config.t) :
  str_in (Config.model cfg) SINGLE_FREQ_MODELS
    && (1 <? length (Config.use_frequencies cfg))%nat = true
  ↔ multiple_frequencies_refused cfg.
Proof.
  unfold multiple_frequencies_refused.
  rewrite andb_true_iff, str_in_spec, Nat.ltb_lt. split; intros [? ?]; split; auto; lia.
Qed.

Lemma GRU_init_eq (w : World) :
  GRU.__init__ w =
    let '(h1, embedding_net) := InputLayer_init (heap w) in
    let hidden_size := Config.hidden_size (cfg_obj h1) in
    let '(h2, gru_weights) :=
      nn_GRU_init (InputLayer.output_size embedding_net) hidden_size h1 in
    let output_size :=
      Z.of_nat (length (Config.target_variables (cfg_obj (heap w)))) in
    let '(h3, head_weights) :=
      get_head_init (Config.hidden_size (cfg_obj h2)) output_size h2 in
    ({| heap := h3;
        log := log w ++
          [Called BaseModelInit; Called NewInputLayer;
           Called (NewGRU (InputLayer.output_size embedding_net) hidden_size);
           Called (NewDropout (Config.output_dropout (cfg_obj h2)));
           Called (GetHead (Config.hidden_size (cfg_obj h2)) output_size)] |},
     Ok {| GRU.base := {| BaseModel.output_size := output_size |};
           GRU.embedding_net := embedding_net;
           GRU.gru := nn.mkGRU (InputLayer.output_size embedding_net) hidden_size gru_weights;
           GRU.dropout := nn.mkDropout (Config.output_dropout (cfg_obj h2));
           GRU.head := Head.mk (Config.hidden_size (cfg_obj h2)) output_size head_weights |}).
Proof.
  unfold GRU.__init__, BaseModel___init__, new_InputLayer, new_nn_GRU,
    new_nn_Dropout, get_head.
  run_M. split_calls.
  rewrite <- !app_assoc. reflexivity.
Qed.
End Facts.

Section Factory.
Context `{Externals}.

Lemma new_eq (cls : ModelClass) (w : World) :
  cls ≠ GRU →
  new cls w =
    let '(h, weights) := model_init cls (heap w) in
    ({| heap := h; log := log w ++ [Called (NewModel cls)] |}, Ok (instance cls weights)).
Proof.
  intros Hcls. destruct cls; try congruence; unfold new; run_M; split_calls; reflexivity.
Qed.

Lemma new_GRU_eq (w : World) :
  new GRU w =
    match GRU.__init__ {| heap := heap w; log := log w ++ [Called (NewModel GRU)] |} with
    | (w', Ok self) => (w', Ok (GRU_instance self))
    | (w', Raise e) => (w', Raise e)
    end.
Proof. unfold new. run_M. reflexivity. Qed.

Lemma matched_class_supported (name : string) :
  name ∈ supported_models ↔ is_Some (matched_class name).
Proof.
  unfold supported_models, matched_class. simpl. split.
  - rewrite !elem_of_cons, elem_of_nil.
    intros Hname; repeat (destruct Hname as [-> | Hname]; [by eexists |]); done.
  - intros [cls Hcls]. rewrite !elem_of_cons.
    repeat match type of Hcls with
           | <[?k := _]> _ !! _ = _ =>
               destruct (decide (k = name)) as [<- | ?];
               [ tauto | rewrite lookup_insert_ne in Hcls by done ]
           end.
    by rewrite lookup_empty in Hcls.
Qed.

Lemma get_model_eq (w : World) :
  let cfg := cfg_obj (heap w) in
  get_model w =
    if str_in (Config.model cfg) SINGLE_FREQ_MODELS
       && (1 <? length (Config.use_frequencies cfg))%nat
    then (w, Raise (ValueError ("Model " +:+ Config.model cfg
                                +:+ " does not support multiple frequencies.")))
    else match matched_class (Config.model cfg) with
         | Some cls =>
             if String.eqb (Config.model cfg) "lstm"
             then (warnings_warn deprecation_message FutureWarning;; new cls) w
             else new cls w
         | None =>
             (w, Raise (NotImplementedError
                          (Config.model cfg
                           +:+ " not implemented or not linked in `get_model()`")))
         end.
Proof.
  intros cfg. unfold get_model. run_M. fold cfg.
  destruct (str_in _ _ && _); [reflexivity |].
  repeat match goal with
         | |- context [String.eqb (Config.model cfg) ?s] =>
             destruct (String.eqb_spec (Config.model cfg) s) as [-> | ?]; [reflexivity |]
         end.
  assert (matched_class (Config.model cfg) = None) as ->; [| reflexivity].
  unfold matched_class. simpl. rewrite !lookup_insert_ne by done. apply lookup_empty.
Qed.
End Factory.

(** ** The factory *)

Section FactoryClaims.
Context `{Externals}.

(** C2. A configuration that names a member of [SINGLE_FREQ_MODELS] and
    declares more than one frequency makes [get_model] raise the
    [ValueError] "Model ... does not support multiple frequencies."; the
    world it leaves is the one it started in, so nothing was logged and no
    model was constructed. *)
Theorem get_model_multiple_frequencies (w : World) :
  multiple_frequencies_refused (cfg_obj (heap w)) →
  get_model w =
    (w, Raise (ValueError ("Model " +:+ Config.model (cfg_obj (heap w))
                           +:+ " does not support multiple frequencies."))).
Proof.
  intros Hrefused. rewrite get_model_eq. cbv zeta.
  apply frequency_check_spec in Hrefused. by rewrite Hrefused.
Qed.

End FactoryClaims.

(** ** The configuration object and the constructor of the GRU *)

Section Frame.
Context `{Externals} `{!ConfigReadOnly}.

Lemma GRU_init_cfg (w : World) :
  cfg_obj (heap (GRU.__init__ w).1) = cfg_obj (heap w).
Proof.
  rewrite GRU_init_eq.
  pose proof (InputLayer_init_cfg (heap w)) as Hil.
  destruct (InputLayer_init (heap w)) as [h1 embedding_net]. simpl in *.
  pose proof (nn_GRU_init_cfg (InputLayer.output_size embedding_net)
                (Config.hidden_size (cfg_obj h1)) h1) as Hgru.
  destruct (nn_GRU_init _ _ h1) as [h2 gru_weights]. simpl in *.
  pose proof (get_head_init_cfg (Config.hidden_size (cfg_obj h2))
                (Z.of_nat (length (Config.target_variables (cfg_obj (heap w))))) h2) as Hhead.
  destruct (get_head_init _ _ h2) as [h3 head_weights]. simpl in *.
  congruence.
Qed.

Lemma new_cfg (cls : ModelClass) (w : World) :
  cfg_obj (heap (new cls w).1) = cfg_obj (heap w).
Proof.
  destruct (decide (cls = GRU)) as [-> | Hcls].
  - rewrite new_GRU_eq.
    pose proof (GRU_init_cfg {| heap := heap w; log := log w ++ [Called (NewModel GRU)] |}) as Hcfg.
    destruct (GRU.__init__ _) as [w' [self | e]]; exact Hcfg.
  - rewrite new_eq by done.
    pose proof (model_init_cfg cls (heap w)) as Hcfg.
    destruct (model_init cls (heap w)) as [h weights]. exact Hcfg.
Qed.

(** C9. When the constructors outside the notebook only read the
    configuration, the configuration object is the same after [get_model]
    as before it, whether the call returns a model or raises, and the same
    holds for the constructor of [GRU]: every key keeps its value. *)
Theorem get_model_keeps_configuration (w : World) :
  cfg_obj (heap (get_model w).1) = cfg_obj (heap w) ∧
  cfg_obj (heap (GRU.__init__ w).1) = cfg_obj (heap w).
Proof.
  split; [| apply GRU_init_cfg].
  rewrite get_model_eq. cbv zeta.
  destruct (str_in _ _ && _); [reflexivity |].
  destruct (matched_class _) as [cls |]; [| reflexivity].
  destruct (String.eqb _ "lstm"); [| apply new_cfg].
  unfold mbind, M_bind, warnings_warn.
  apply (new_cfg cls {| heap := heap w;
                        log := log w ++ [Warn FutureWarning deprecation_message] |}).
Qed.

End Frame.

(** ** The forward pass *)

Section Forward.
Context `{Externals}.

Lemma forward_eq (self : GRU.t) (data : gmap string DataValue) (w : World) :
  GRU.forward self data w =
    let '(h1, x_d) := InputLayer_forward (GRU.embedding_net self) data true (heap w) in
    let '(h2, (gru_output, h_n)) := nn_GRU_forward (GRU.gru self) x_d h1 in
    let '(h3, x) :=
      nn_Dropout_forward (GRU.dropout self) (transpose 0 1 gru_output) h2 in
    let '(h4, other) := Head_forward (GRU.head self) x h3 in
    ({| heap := h4;
        log := log w ++
          [Called (EmbeddingNet data true);
           Called (RunGRU x_d);
           Called (RunDropout (transpose 0 1 gru_output));
           Called (RunHead x)] |},
     Ok (dict_update {[ "h_n" := transpose 0 1 h_n ]} other)).
Proof.
  unfold GRU.forward. run_M.
  destruct (InputLayer_forward _ _ _ _) as [h1 x_d]. simpl.
  destruct (nn_GRU_forward _ _ _) as [h2 [gru_output h_n]]. simpl.
  destruct (nn_Dropout_forward _ _ _) as [h3 x]. simpl.
  destruct (Head_forward _ _ _) as [h4 other]. simpl.
  rewrite <- !app_assoc. reflexivity.
Qed.

Lemma dict_update_lookup {V} (d other : gmap string V) (key : string) :
  dict_update d other !! key =
    match other !! key with
    | Some v => Some v
    | None => d !! key
    end.
Proof.
  unfold dict_update. destruct (other !! key) as [v |] eqn:Hkey.
  - by apply lookup_union_Some_l.
  - by apply lookup_union_r.
Qed.

(** C10. The dictionary [forward] returns is [{'h_n': h_n}], with [h_n] the
    transposed final hidden state of the core, updated with the dictionary
    of the head.  It always has the key ['h_n']; when the head returns a
    value under ['h_n'] that value is the one returned, otherwise the
    hidden state is; every other key is as the head returned it. *)
Theorem forward_h_n (self : GRU.t) (data : gmap string DataValue) (w : World) :
  ∃ h1 x_d h2 gru_output h_n h3 x h4 other w' pred,
    InputLayer_forward (GRU.embedding_net self) data true (heap w) = (h1, x_d) ∧
    nn_GRU_forward (GRU.gru self) x_d h1 = (h2, (gru_output, h_n)) ∧
    nn_Dropout_forward (GRU.dropout self) (transpose 0 1 gru_output) h2 = (h3, x) ∧
    Head_forward (GRU.head self) x h3 = (h4, other) ∧
    GRU.forward self data w = (w', Ok pred) ∧
    pred = dict_update {[ "h_n" := transpose 0 1 h_n ]} other ∧
    is_Some (pred !! "h_n") ∧
    (∀ v, other !! "h_n" = Some v → pred !! "h_n" = Some v) ∧
    (other !! "h_n" = None → pred !! "h_n" = Some (transpose 0 1 h_n)) ∧
    (∀ key, key ≠ "h_n" → pred !! key = other !! key).
Proof.
  rewrite forward_eq.
  destruct (InputLayer_forward _ _ _ _) as [h1 x_d] eqn:Hembed.
  destruct (nn_GRU_forward _ _ _) as [h2 [gru_output h_n]] eqn:Hgru.
  destruct (nn_Dropout_forward _ _ _) as [h3 x] eqn:Hdropout.
  destruct (Head_forward _ _ _) as [h4 other] eqn:Hhead.
  eexists h1, x_d, h2, gru_output, h_n, h3, x, h4, other, _, _.
  do 6 (split; [done |]).
  split; [| split; [| split]].
  - rewrite dict_update_lookup. destruct (other !! "h_n"); [done |].
    by rewrite lookup_singleton_eq.
  - intros v Hv. by rewrite dict_update_lookup, Hv.
  - intros Hnone. by rewrite dict_update_lookup, Hnone, lookup_singleton_eq.
  - intros key Hkey. rewrite dict_update_lookup.
    destruct (other !! key); [done |]. by rewrite lookup_singleton_ne.
Qed.

(** C6. For a batch whose dynamic inputs have the shape
    [[batch size, sequence length, features]], and sub-modules that work on
    shapes as documented, the dictionary [forward] returns has the key
    ['y_hat'], and the prediction under it has one entry per sample and per
    time step of the input sequence: its shape is
    [[batch size, sequence length, n_out]]. *)
Theorem forward_y_hat `{!TorchShapes} `{!ZooShapes} (self : GRU.t) (data : gmap string DataValue)
    (w : World) (batch_size seq_length : nat) :
  batch_dims data batch_size seq_length →
  ∃ w' pred y_hat,
    GRU.forward self data w = (w', Ok pred) ∧
    pred !! "y_hat" = Some y_hat ∧
    shape y_hat = [batch_size; seq_length; Z.to_nat (Head.n_out (GRU.head self))].
Proof.
  intros Hbatch. rewrite forward_eq.
  pose proof (InputLayer_shape (GRU.embedding_net self) data _ _ (heap w) Hbatch) as Hx_d.
  destruct (InputLayer_forward _ _ _ _) as [h1 x_d]. simpl in Hx_d.
  destruct (nn_GRU_shape (GRU.gru self) x_d _ _ _ h1 Hx_d) as [Hout _].
  destruct (nn_GRU_forward _ _ _) as [h2 [gru_output h_n]]. simpl in Hout.
  apply transpose_shape in Hout.
  pose proof (nn_Dropout_shape (GRU.dropout self) (transpose 0 1 gru_output) h2) as Hx.
  destruct (nn_Dropout_forward _ _ _) as [h3 x]. simpl in Hx. rewrite Hout in Hx.
  destruct (Head_shape (GRU.head self) x _ _ _ h3 Hx) as (y_hat & Hy & Hshape).
  destruct (Head_forward _ _ _) as [h4 other]. simpl in Hy.
  eexists _, _, y_hat. split; [reflexivity |]. split; [| exact Hshape].
  by rewrite dict_update_lookup, Hy.
Qed.
End Forward.

(** ** The sample library meets the assumptions *)

Lemma sample_read_only single_freq_models extra :
  @ConfigReadOnly shapes_only (sample_library single_freq_models extra).
Proof. by constructor. Qed.

Lemma swap_dims_shape (x : list nat) a b rest :
  x = a :: b :: rest → swap_dims 0 1 x = b :: a :: rest.
Proof. by intros ->. Qed.

Lemma sample_torch_shapes single_freq_models extra :
  @TorchShapes shapes_only (sample_library single_freq_models extra).
Proof.
  constructor; simpl.
  - apply swap_dims_shape.
  - intros self x L N features h ->. by split.
  - done.
Qed.

Lemma sample_zoo_shapes single_freq_models :
  @ZooShapes shapes_only (sample_library single_freq_models None).
Proof.
  constructor; simpl.
  - intros self data N L h (x_d & Hdata & Hne & Hall).
    unfold sample_InputLayer_forward. simpl. rewrite Hdata.
    destruct (map_to_list x_d) as [| [key x] l] eqn:Hlist.
    { by apply map_to_list_empty_iff in Hlist. }
    assert (x_d !! key = Some x) as Hx.
    { apply elem_of_map_to_list. rewrite Hlist. left. }
    destruct (Hall key x Hx) as [features Hshape]. simpl in Hshape. subst x.
    unfold Tensor in *; simpl in *. by rewrite Hlist.
  - intros self x N L features h ->. eexists. split; [apply lookup_singleton_eq | done].
Qed.

Lemma sample_batch_dims : @batch_dims shapes_only sample_batch 256 30.
Proof.
  eexists. split; [reflexivity |]. split.
  - intros Hempty. apply (f_equal (lookup "temperature")) in Hempty.
    vm_compute in Hempty. discriminate.
  - apply map_Forall_insert_2; [by exists 1%nat |].
    apply map_Forall_singleton. by exists 1%nat.
Qed.

(** ** The statements on the sample configuration *)

Lemma get_model_multiple_frequencies_witness :
  @multiple_frequencies_refused shapes_only sample_zoo (Config.with_model "gru" sample_cfg) ∧
  @get_model shapes_only sample_zoo (start (Config.with_model "gru" sample_cfg))
    = (start (Config.with_model "gru" sample_cfg),
       Raise (ValueError "Model gru does not support multiple frequencies.")).
Proof.
  assert (@multiple_frequencies_refused shapes_only sample_zoo
            (Config.with_model "gru" sample_cfg)) as Hrefused.
  { by apply frequency_check_spec. }
  split; [exact Hrefused |].
  exact (@get_model_multiple_frequencies shapes_only sample_zoo
           (start (Config.with_model "gru" sample_cfg)) Hrefused).
Defined.

Lemma forward_y_hat_witness :
  @TorchShapes shapes_only sample_zoo ∧
  @ZooShapes shapes_only sample_zoo ∧
  @batch_dims shapes_only sample_batch 256 30 ∧
  ∃ w' pred y_hat,
    @GRU.forward shapes_only sample_zoo sample_GRU sample_batch (start gru_cfg)
      = (w', Ok pred) ∧
    pred !! "y_hat" = Some y_hat ∧
    y_hat = [256; 30; 1]%nat.
Proof.
  split; [exact (sample_torch_shapes single_freq_current None) |].
  split; [exact (sample_zoo_shapes single_freq_current) |].
  split; [exact sample_batch_dims |].
  exact (@forward_y_hat shapes_only sample_zoo
           (sample_torch_shapes single_freq_current None)
           (sample_zoo_shapes single_freq_current)
           sample_GRU sample_batch (start gru_cfg) 256 30 sample_batch_dims).
Defined.

Lemma get_model_keeps_configuration_witness :
  @ConfigReadOnly shapes_only sample_zoo ∧
  cfg_obj (heap (@get_model shapes_only sample_zoo (start gru_cfg)).1) = gru_cfg ∧
  cfg_obj (heap (@GRU.__init__ shapes_only sample_zoo (start gru_cfg)).1) = gru_cfg.
Proof.
  split; [exact (sample_read_only single_freq_current None) |].
  exact (@get_model_keeps_configuration shapes_only sample_zoo
           (sample_read_only single_freq_current None) (start gru_cfg)).
Defined.

(** ** Runs of the sample library *)

Example sample_cfg_model :
  @get_model shapes_only sample_zoo (start sample_cfg)
    = (@mkWorld shapes_only (@mkHeap shapes_only sample_cfg 1%nat)
         [Called (NewModel MTSLSTM)],
       Ok (@instance shapes_only MTSLSTM tt)).
Proof. by vm_compute. Qed.

Example gru_cfg_model :
  @get_model shapes_only sample_zoo (start gru_cfg)
    = (@mkWorld shapes_only (@mkHeap shapes_only gru_cfg 3%nat)
         [Called (NewModel GRU); Called BaseModelInit; Called NewInputLayer;
          Called (NewGRU 4 16); Called (NewDropout 0x1.999999999999ap-2%float);
          Called (GetHead 16 1)],
       Ok (GRU_instance sample_GRU)).
Proof. by vm_compute. Qed.

Example sample_forward :
  @GRU.forward shapes_only sample_zoo sample_GRU sample_batch (start gru_cfg)
    = (@mkWorld shapes_only (@mkHeap shapes_only gru_cfg 1%nat)
         [Called (EmbeddingNet sample_batch true);
          Called (@RunGRU shapes_only [30; 256; 4]%nat);
          Called (@RunDropout shapes_only [256; 30; 16]%nat);
          Called (@RunHead shapes_only [256; 30; 16]%nat)],
       Ok ({[ "h_n" := [256; 1; 16]%nat; "y_hat" := [256; 30; 1]%nat ]}
             : gmap string (list nat))).
Proof. vm_compute. reflexivity. Qed.

Example head_overwrites_h_n :
  (@GRU.forward shapes_only (sample_library single_freq_current (Some "h_n"))
     sample_GRU sample_batch (start gru_cfg)).2
    = Ok ({[ "h_n" := [7%nat]; "y_hat" := [256; 30; 1]%nat ]}
            : gmap string (list nat)).
Proof. vm_compute. reflexivity. Qed.

(** * Further properties of the factory and of the GRU model *)

(** ** Helper facts *)

Section MoreFacts.
Context `{Externals}.

Lemma new_spec (cls : ModelClass) (w : World) :
  ∃ w' model rest,
    new cls w = (w', Ok model) ∧ class_of model = cls ∧
    log w' = log w ++ Called (NewModel cls) :: rest ∧
    filter is_warning rest = [] ∧ filter is_new_model rest = [].
Proof.
  destruct (decide (cls = GRU)) as [-> | Hcls].
  - rewrite new_GRU_eq, GRU_init_eq. simpl. split_calls.
    eexists _, _, _. split; [reflexivity |]. split; [reflexivity |].
    simpl. rewrite <- app_assoc. split; [reflexivity |]. split; reflexivity.
  - rewrite new_eq by done. split_calls.
    eexists _, _, []. split; [reflexivity |]. split; [reflexivity |].
    split; [reflexivity |]. split; reflexivity.
Qed.

Lemma get_model_class (w w' : World) (model : Model) :
  get_model w = (w', Ok model) →
  matched_class (Config.model (cfg_obj (heap w))) = Some (class_of model).
Proof.
  rewrite get_model_eq. cbv zeta.
  destruct (str_in _ _ && _); [discriminate |].
  destruct (matched_class _) as [cls |]; [| discriminate].
  destruct (String.eqb _ "lstm").
  - unfold mbind, M_bind, warnings_warn.
    destruct (new_spec cls {| heap := heap w;
                              log := log w ++ [Warn FutureWarning deprecation_message] |})
      as (w1 & m & rest & -> & <- & _). by intros [= _ ->].
  - destruct (new_spec cls w) as (w1 & m & rest & -> & <- & _). by intros [= _ ->].
Qed.

Lemma matched_class_cases (name : string) (cls : ModelClass) :
  matched_class name = Some cls →
  (name, cls) ∈ [("cudalstm", CudaLSTM); ("ealstm", EALSTM); ("customlstm", CustomLSTM);
                 ("lstm", CustomLSTM); ("gru", GRU); ("embcudalstm", EmbCudaLSTM);
                 ("mtslstm", MTSLSTM); ("odelstm", ODELSTM)].
Proof.
  unfold matched_class. apply elem_of_list_to_map_2.
Qed.

Lemma matched_class_inj (a b : string) (cls : ModelClass) :
  matched_class a = Some cls → matched_class b = Some cls →
  a = b ∨ (a ∈ ["lstm"; "customlstm"] ∧ b ∈ ["lstm"; "customlstm"]).
Proof.
  intros Ha Hb. apply matched_class_cases in Ha. apply matched_class_cases in Hb.
  rewrite !elem_of_cons, elem_of_nil in Ha, Hb.
  repeat (destruct Ha as [Ha | Ha]); try done; simplify_eq;
    repeat (destruct Hb as [Hb | Hb]); try done; simplify_eq;
    first [ by left | right; rewrite !elem_of_cons; auto ].
Qed.
End MoreFacts.

(** ** The factory: outcomes, warnings and the log *)

Section FactoryOutcomes.
Context `{Externals}.

(** X2. [get_model] raises its [NotImplementedError] exactly when the
    identifier is not a supported one and the frequency check does not
    refuse the configuration: the frequency check comes first, also for an
    identifier the factory does not know. *)
Theorem get_model_not_implemented_iff (w : World) :
  (get_model w).2
    = Raise (NotImplementedError
               (Config.model (cfg_obj (heap w))
                +:+ " not implemented or not linked in `get_model()`")) ↔
  ((Config.model (cfg_obj (heap w)) ∉ supported_models) ∧
   ¬ multiple_frequencies_refused (cfg_obj (heap w))).
Proof.
  rewrite get_model_eq. cbv zeta. rewrite <- frequency_check_spec.
  rewrite matched_class_supported.
  destruct (str_in _ _ && _).
  - simpl. split; [discriminate | intros [_ Hfreq]; by destruct Hfreq].
  - destruct (matched_class _) as [cls |].
    + split; [| intros [Hcls _]; destruct Hcls; by eexists].
      destruct (String.eqb _ "lstm").
      * unfold mbind, M_bind, warnings_warn.
        destruct (new_spec cls {| heap := heap w;
                                  log := log w ++ [Warn FutureWarning deprecation_message] |})
          as (w' & model & rest & -> & _). discriminate.
      * destruct (new_spec cls w) as (w' & model & rest & -> & _). discriminate.
    + simpl. split; [intros _; split; [by intros [? ?] | discriminate] | done].
Qed.

(** X4. The identifier decides the class up to the deprecated alias: when
    [get_model] returns models of the same class for two configurations,
    their model identifiers are equal, or they are ["lstm"] and
    ["customlstm"]. *)
Theorem get_model_class_injective (w1 w1' w2 w2' : World) (model1 model2 : Model) :
  get_model w1 = (w1', Ok model1) →
  get_model w2 = (w2', Ok model2) →
  class_of model1 = class_of model2 →
  Config.model (cfg_obj (heap w1)) = Config.model (cfg_obj (heap w2)) ∨
  (Config.model (cfg_obj (heap w1)) ∈ ["lstm"; "customlstm"] ∧
   Config.model (cfg_obj (heap w2)) ∈ ["lstm"; "customlstm"]).
Proof.
  intros H1 H2 Hclass.
  apply get_model_class in H1. apply get_model_class in H2.
  rewrite Hclass in H1. exact (matched_class_inj _ _ _ H1 H2).
Qed.

(** X5. A call of [get_model] that returns has instantiated exactly one
    model class, the class of the object it returns. *)
Theorem get_model_one_model (w w' : World) (model : Model) :
  get_model w = (w', Ok model) →
  ∃ added,
    log w' = log w ++ added ∧
    filter is_new_model added = [Called (NewModel (class_of model))].
Proof.
  rewrite get_model_eq. cbv zeta.
  destruct (str_in _ _ && _); [discriminate |].
  destruct (matched_class _) as [cls |]; [| discriminate].
  destruct (String.eqb _ "lstm").
  - unfold mbind, M_bind, warnings_warn.
    destruct (new_spec cls {| heap := heap w;
                              log := log w ++ [Warn FutureWarning deprecation_message] |})
      as (w1 & m & rest & -> & <- & Hlog & _ & Hnew).
    intros [= <- <-]. simpl in Hlog. eexists.
    split; [by rewrite Hlog, <- app_assoc |]. simpl.
    rewrite filter_cons_False by (by intros []).
    by rewrite filter_cons_True, Hnew.
  - destruct (new_spec cls w) as (w1 & m & rest & -> & <- & Hlog & _ & Hnew).
    intros [= <- <-]. eexists. split; [exact Hlog |].
    by rewrite filter_cons_True, Hnew.
Qed.
End FactoryOutcomes.

(** ** The GRU model: shapes along the forward pass *)

Section ForwardShapes.
Context `{Externals}.

Lemma forward_shapes `{!TorchShapes} `{!ZooShapes} (self : GRU.t)
    (data : gmap string DataValue) (w : World) (N L : nat) :
  batch_dims data N L →
  ∃ h x_d gru_output h_n x other,
    GRU.forward self data w =
      ({| heap := h;
          log := log w ++
            [Called (EmbeddingNet data true);
             Called (RunGRU x_d);
             Called (RunDropout (transpose 0 1 gru_output));
             Called (RunHead x)] |},
       Ok (dict_update {[ "h_n" := transpose 0 1 h_n ]} other)) ∧
    (∃ h2 h3, Head_forward (GRU.head self) x h2 = (h3, other)) ∧
    shape x_d = [L; N; Z.to_nat (InputLayer.output_size (GRU.embedding_net self))] ∧
    shape (transpose 0 1 h_n) = [N; 1; Z.to_nat (nn.hidden_size (GRU.gru self))]%nat ∧
    shape x = [N; L; Z.to_nat (nn.hidden_size (GRU.gru self))] ∧
    ∃ y_hat, other !! "y_hat" = Some y_hat ∧
             shape y_hat = [N; L; Z.to_nat (Head.n_out (GRU.head self))].
Proof.
  intros Hbatch. rewrite forward_eq.
  pose proof (InputLayer_shape (GRU.embedding_net self) data _ _ (heap w) Hbatch) as Hx_d.
  destruct (InputLayer_forward _ _ _ _) as [h1 x_d]. simpl in Hx_d.
  destruct (nn_GRU_shape (GRU.gru self) x_d _ _ _ h1 Hx_d) as [Hout Hh_n].
  destruct (nn_GRU_forward _ _ _) as [h2 [gru_output h_n]]. simpl in Hout, Hh_n.
  apply transpose_shape in Hout. apply transpose_shape in Hh_n.
  pose proof (nn_Dropout_shape (GRU.dropout self) (transpose 0 1 gru_output) h2) as Hx.
  destruct (nn_Dropout_forward _ _ _) as [h3 x]. simpl in Hx. rewrite Hout in Hx.
  destruct (Head_shape (GRU.head self) x _ _ _ h3 Hx) as (y_hat & Hy & Hshape).
  destruct (Head_forward _ _ _) as [h4 other] eqn:Hhead. simpl in Hy.
  eexists h4, x_d, gru_output, h_n, x, other.
  split; [reflexivity |]. split; [by eexists _, _ |].
  do 3 (split; [done |]). by exists y_hat.
Qed.

Lemma GRU_init_widths `{!ConfigReadOnly} (w w' : World) (self : GRU.t) :
  GRU.__init__ w = (w', Ok self) →
  nn.input_size (GRU.gru self) = InputLayer.output_size (GRU.embedding_net self) ∧
  Head.n_in (GRU.head self) = nn.hidden_size (GRU.gru self) ∧
  Head.n_out (GRU.head self) = GRU.output_size self.
Proof.
  rewrite GRU_init_eq.
  pose proof (InputLayer_init_cfg (heap w)) as Hil.
  destruct (InputLayer_init (heap w)) as [h1 embedding_net]. simpl in *.
  pose proof (nn_GRU_init_cfg (InputLayer.output_size embedding_net)
                (Config.hidden_size (cfg_obj h1)) h1) as Hgru.
  destruct (nn_GRU_init _ _ h1) as [h2 gru_weights]. simpl in *.
  destruct (get_head_init _ _ h2) as [h3 head_weights].
  intros [= _ <-]. simpl. by rewrite Hgru.
Qed.

(** X6. The final hidden state is returned batch first, as the comment in
    [forward] says ("reshape to [batch_size, 1, n_hiddens]"): for a batch of
    [batch_size] samples, and a head that returns nothing under ['h_n'],
    the entry ['h_n'] of the result has the shape
    [[batch_size, 1, hidden_size]] of the recurrent core. *)
Theorem forward_h_n_shape `{!TorchShapes} `{!ZooShapes} (self : GRU.t)
    (data : gmap string DataValue) (w : World) (batch_size seq_length : nat) :
  batch_dims data batch_size seq_length →
  (∀ x h, (Head_forward (GRU.head self) x h).2 !! "h_n" = None) →
  ∃ w' pred h_n,
    GRU.forward self data w = (w', Ok pred) ∧
    pred !! "h_n" = Some h_n ∧
    shape h_n = [batch_size; 1; Z.to_nat (nn.hidden_size (GRU.gru self))]%nat.
Proof.
  intros Hbatch Hhead.
  destruct (forward_shapes self data w _ _ Hbatch)
    as (h & x_d & gru_output & h_n & x & other & -> & (h2 & h3 & Hother) & _ & Hh_n & _).
  eexists _, _, _. split; [reflexivity |]. split; [| exact Hh_n].
  rewrite dict_update_lookup.
  specialize (Hhead x h2). rewrite Hother in Hhead. simpl in Hhead.
  by rewrite Hhead, lookup_singleton_eq.
Qed.

(** X7. The widths the constructor declares are the widths [forward] works
    with: for a [GRU] object built by [__init__], the tensor given to the
    recurrent core has [input_size] features, in the layout
    [[sequence length, batch size, input_size]], and the tensor given to the
    head has [n_in] features, in the layout
    [[batch size, sequence length, n_in]]. *)
Theorem forward_widths_match `{!ConfigReadOnly} `{!TorchShapes} `{!ZooShapes}
    (w0 w0' : World) (self : GRU.t) (data : gmap string DataValue) (w : World)
    (batch_size seq_length : nat) :
  GRU.__init__ w0 = (w0', Ok self) →
  batch_dims data batch_size seq_length →
  ∃ w' pred x_d gru_output x,
    GRU.forward self data w = (w', Ok pred) ∧
    log w' = log w ++
      [Called (EmbeddingNet data true);
       Called (RunGRU x_d);
       Called (RunDropout (transpose 0 1 gru_output));
       Called (RunHead x)] ∧
    shape x_d = [seq_length; batch_size; Z.to_nat (nn.input_size (GRU.gru self))] ∧
    shape x = [batch_size; seq_length; Z.to_nat (Head.n_in (GRU.head self))].
Proof.
  intros Hinit Hbatch.
  destruct (GRU_init_widths _ _ _ Hinit) as (Hin & Hhidden & _).
  destruct (forward_shapes self data w _ _ Hbatch)
    as (h & x_d & gru_output & h_n & x & other & -> & _ & Hx_d & _ & Hx & _).
  eexists _, _, x_d, gru_output, x. split; [reflexivity |]. split; [reflexivity |].
  by rewrite Hin, Hhidden.
Qed.

(** X8. When the [forward] methods of the sub-modules only read the
    configuration, [forward] leaves the configuration object as it was. *)
Theorem forward_keeps_configuration `{!ForwardReadOnly} (self : GRU.t)
    (data : gmap string DataValue) (w : World) :
  cfg_obj (heap (GRU.forward self data w).1) = cfg_obj (heap w).
Proof.
  rewrite forward_eq.
  pose proof (InputLayer_forward_cfg (GRU.embedding_net self) data true (heap w)) as Hil.
  destruct (InputLayer_forward _ _ _ _) as [h1 x_d]. simpl in Hil.
  pose proof (nn_GRU_forward_cfg (GRU.gru self) x_d h1) as Hgru.
  destruct (nn_GRU_forward _ _ _) as [h2 [gru_output h_n]]. simpl in Hgru.
  pose proof (nn_Dropout_forward_cfg (GRU.dropout self) (transpose 0 1 gru_output) h2) as Hdrop.
  destruct (nn_Dropout_forward _ _ _) as [h3 x]. simpl in Hdrop.
  pose proof (Head_forward_cfg (GRU.head self) x h3) as Hhead.
  destruct (Head_forward _ _ _) as [h4 other]. simpl in *. congruence.
Qed.

End ForwardShapes.

Section Dropout.
Context `{Externals} `{!ConfigReadOnly}.

(** X10. The dropout layer of a [GRU] object built by [__init__] has the
    rate [cfg.output_dropout] of the configuration the constructor started
    with; the layer is an attribute of the object and is not one of its
    declared parts. *)
Theorem GRU_init_dropout (w w' : World) (self : GRU.t) :
  GRU.__init__ w = (w', Ok self) →
  nn.p (GRU.dropout self) = Config.output_dropout (cfg_obj (heap w)) ∧
  GRU.getattr self "dropout" = Some (GRU.a_Dropout (GRU.dropout self)) ∧
  "dropout" ∉ GRU.module_parts.
Proof.
  rewrite GRU_init_eq.
  pose proof (InputLayer_init_cfg (heap w)) as Hil.
  destruct (InputLayer_init (heap w)) as [h1 embedding_net]. simpl in *.
  pose proof (nn_GRU_init_cfg (InputLayer.output_size embedding_net)
                (Config.hidden_size (cfg_obj h1)) h1) as Hgru.
  destruct (nn_GRU_init _ _ h1) as [h2 gru_weights]. simpl in *.
  destruct (get_head_init _ _ h2) as [h3 head_weights].
  intros [= _ <-]. simpl. split; [congruence |]. split; [reflexivity |].
  by apply str_in_false.
Qed.
End Dropout.

(** ** The further statements on the sample configuration *)

Lemma sample_forward_read_only single_freq_models extra :
  @ForwardReadOnly shapes_only (sample_library single_freq_models extra).
Proof. by constructor. Qed.

Lemma sample_head_no_h_n (self : @Head.t shapes_only) (x : list nat) (h : @Heap shapes_only) :
  (@Head_forward shapes_only sample_zoo self x h).2 !! "h_n" = None.
Proof. simpl. by apply lookup_singleton_ne. Qed.

Lemma sample_GRU_init :
  @GRU.__init__ shapes_only sample_zoo (start gru_cfg)
    = (@mkWorld shapes_only (@mkHeap shapes_only gru_cfg 3%nat)
         [Called BaseModelInit; Called NewInputLayer; Called (NewGRU 4 16);
          Called (NewDropout 0x1.999999999999ap-2%float); Called (GetHead 16 1)],
       Ok sample_GRU).
Proof. vm_compute. reflexivity. Qed.

Lemma get_model_class_injective_witness :
  @get_model shapes_only sample_zoo (start lstm_cfg)
    = (@mkWorld shapes_only (@mkHeap shapes_only lstm_cfg 1%nat)
         [Warn FutureWarning deprecation_message; Called (NewModel CustomLSTM)],
       Ok (@instance shapes_only CustomLSTM tt)) ∧
  @get_model shapes_only sample_zoo (start customlstm_cfg)
    = (@mkWorld shapes_only (@mkHeap shapes_only customlstm_cfg 1%nat)
         [Called (NewModel CustomLSTM)],
       Ok (@instance shapes_only CustomLSTM tt)) ∧
  ("lstm" = "customlstm" ∨
   ("lstm" ∈ ["lstm"; "customlstm"] ∧ "customlstm" ∈ ["lstm"; "customlstm"])).
Proof.
  assert (@get_model shapes_only sample_zoo (start lstm_cfg)
    = (@mkWorld shapes_only (@mkHeap shapes_only lstm_cfg 1%nat)
         [Warn FutureWarning deprecation_message; Called (NewModel CustomLSTM)],
       Ok (@instance shapes_only CustomLSTM tt))) as Hlstm.
  { vm_compute. reflexivity. }
  assert (@get_model shapes_only sample_zoo (start customlstm_cfg)
    = (@mkWorld shapes_only (@mkHeap shapes_only customlstm_cfg 1%nat)
         [Called (NewModel CustomLSTM)],
       Ok (@instance shapes_only CustomLSTM tt))) as Hcustom.
  { vm_compute. reflexivity. }
  split; [exact Hlstm |]. split; [exact Hcustom |].
  exact (@get_model_class_injective shapes_only sample_zoo _ _ _ _ _ _
           Hlstm Hcustom eq_refl).
Defined.

Lemma get_model_one_model_witness :
  @get_model shapes_only sample_zoo (start gru_cfg)
    = (@mkWorld shapes_only (@mkHeap shapes_only gru_cfg 3%nat)
         [Called (NewModel GRU); Called BaseModelInit; Called NewInputLayer;
          Called (NewGRU 4 16); Called (NewDropout 0x1.999999999999ap-2%float);
          Called (GetHead 16 1)],
       Ok (GRU_instance sample_GRU)) ∧
  ∃ added : list (@Event shapes_only),
    [Called (NewModel GRU); Called BaseModelInit; Called NewInputLayer;
     Called (NewGRU 4 16); Called (NewDropout 0x1.999999999999ap-2%float);
     Called (GetHead 16 1)] = [] ++ added ∧
    filter is_new_model added = [Called (NewModel GRU)].
Proof.
  assert (@get_model shapes_only sample_zoo (start gru_cfg)
    = (@mkWorld shapes_only (@mkHeap shapes_only gru_cfg 3%nat)
         [Called (NewModel GRU); Called BaseModelInit; Called NewInputLayer;
          Called (NewGRU 4 16); Called (NewDropout 0x1.999999999999ap-2%float);
          Called (GetHead 16 1)],
       Ok (GRU_instance sample_GRU))) as Hreturns.
  { vm_compute. reflexivity. }
  split; [exact Hreturns |].
  exact (@get_model_one_model shapes_only sample_zoo _ _ _ Hreturns).
Defined.

Lemma forward_h_n_shape_witness :
  @TorchShapes shapes_only sample_zoo ∧
  @ZooShapes shapes_only sample_zoo ∧
  @batch_dims shapes_only sample_batch 256 30 ∧
  (∀ x h, (@Head_forward shapes_only sample_zoo (GRU.head sample_GRU) x h).2 !! "h_n" = None) ∧
  ∃ w' pred h_n,
    @GRU.forward shapes_only sample_zoo sample_GRU sample_batch (start gru_cfg)
      = (w', Ok pred) ∧
    pred !! "h_n" = Some h_n ∧
    h_n = [256; 1; 16]%nat.
Proof.
  split; [exact (sample_torch_shapes single_freq_current None) |].
  split; [exact (sample_zoo_shapes single_freq_current) |].
  split; [exact sample_batch_dims |].
  split; [exact (sample_head_no_h_n (GRU.head sample_GRU)) |].
  exact (@forward_h_n_shape shapes_only sample_zoo
           (sample_torch_shapes single_freq_current None)
           (sample_zoo_shapes single_freq_current)
           sample_GRU sample_batch (start gru_cfg) 256 30 sample_batch_dims
           (sample_head_no_h_n (GRU.head sample_GRU))).
Defined.

Lemma forward_widths_match_witness :
  @ConfigReadOnly shapes_only sample_zoo ∧
  @TorchShapes shapes_only sample_zoo ∧
  @ZooShapes shapes_only sample_zoo ∧
  @batch_dims shapes_only sample_batch 256 30 ∧
  ∃ w' pred (x_d gru_output x : list nat),
    @GRU.forward shapes_only sample_zoo sample_GRU sample_batch (start gru_cfg)
      = (w', Ok pred) ∧
    log w' =
      [Called (EmbeddingNet sample_batch true);
       Called (@RunGRU shapes_only x_d);
       Called (@RunDropout shapes_only (swap_dims 0 1 gru_output));
       Called (@RunHead shapes_only x)] ∧
    x_d = [30; 256; 4]%nat ∧
    x = [256; 30; 16]%nat.
Proof.
  split; [exact (sample_read_only single_freq_current None) |].
  split; [exact (sample_torch_shapes single_freq_current None) |].
  split; [exact (sample_zoo_shapes single_freq_current) |].
  split; [exact sample_batch_dims |].
  exact (@forward_widths_match shapes_only sample_zoo
           (sample_read_only single_freq_current None)
           (sample_torch_shapes single_freq_current None)
           (sample_zoo_shapes single_freq_current)
           _ _ sample_GRU sample_batch (start gru_cfg) 256 30
           sample_GRU_init sample_batch_dims).
Defined.

Lemma forward_keeps_configuration_witness :
  @ForwardReadOnly shapes_only sample_zoo ∧
  cfg_obj (heap (@GRU.forward shapes_only sample_zoo sample_GRU sample_batch
                   (start gru_cfg)).1) = gru_cfg.
Proof.
  split; [exact (sample_forward_read_only single_freq_current None) |].
  exact (@forward_keeps_configuration shapes_only sample_zoo
           (sample_forward_read_only single_freq_current None)
           sample_GRU sample_batch (start gru_cfg)).
Defined.

Lemma GRU_init_dropout_witness :
  @ConfigReadOnly shapes_only sample_zoo ∧
  @GRU.__init__ shapes_only sample_zoo (start gru_cfg)
    = (@mkWorld shapes_only (@mkHeap shapes_only gru_cfg 3%nat)
         [Called BaseModelInit; Called NewInputLayer; Called (NewGRU 4 16);
          Called (NewDropout 0x1.999999999999ap-2%float); Called (GetHead 16 1)],
       Ok sample_GRU) ∧
  nn.p (GRU.dropout sample_GRU) = 0x1.999999999999ap-2%float ∧
  GRU.getattr sample_GRU "dropout" = Some (GRU.a_Dropout (GRU.dropout sample_GRU)) ∧
  "dropout" ∉ GRU.module_parts.
Proof.
  split; [exact (sample_read_only single_freq_current None) |].
  split; [exact sample_GRU_init |].
  exact (@GRU_init_dropout shapes_only sample_zoo
           (sample_read_only single_freq_current None) _ _ _ sample_GRU_init).
Defined.

(** * A library whose calls can fail *)

(** ** Equations of the embedded code *)

Ltac run_lib :=
  unfold mbind, M_bind, mret, M_ret, raise, call, enter, cfg_attr, warnings_warn, entries;
  simpl.

Section LibraryFacts.
Context `{Library.t}.

Lemma frequency_check_refuses_spec (cfg : Config.t) :
  str_in (Config.model cfg) Library.SINGLE_FREQ_MODELS
    && (1 <? length (Config.use_frequencies cfg))%nat = true
  ↔ frequency_check_refuses cfg.
Proof.
  unfold frequency_check_refuses.
  rewrite andb_true_iff, str_in_spec, Nat.ltb_lt. split; intros [? ?]; split; auto; lia.
Qed.

Lemma get_model_run (w : World) :
  get_model w =
    if str_in (Config.model (cfg_obj (heap w))) Library.SINGLE_FREQ_MODELS
       && (1 <? length (Config.use_frequencies (cfg_obj (heap w))))%nat
    then (w, Raise (ValueError ("Model " +:+ Config.model (cfg_obj (heap w))
                                +:+ " does not support multiple frequencies.")))
    else match matched_class (Config.model (cfg_obj (heap w))) with
         | Some cls =>
             if String.eqb (Config.model (cfg_obj (heap w))) "lstm"
             then new cls (warned_world FutureWarning deprecation_message w)
             else new cls w
         | None =>
             (w, Raise (NotImplementedError
                          (Config.model (cfg_obj (heap w))
                           +:+ " not implemented or not linked in `get_model()`")))
         end.
Proof.
  unfold get_model. run_lib. set (cfg := cfg_obj (heap w)).
  destruct (str_in _ _ && _); [reflexivity |].
  repeat match goal with
         | |- context [String.eqb (Config.model cfg) ?s] =>
             destruct (String.eqb_spec (Config.model cfg) s) as [-> | ?]; [reflexivity |]
         end.
  assert (matched_class (Config.model cfg) = None) as ->; [| reflexivity].
  unfold matched_class. simpl. rewrite !lookup_insert_ne by done. apply lookup_empty.
Qed.

Lemma new_run (cls : ModelClass) (w : World) :
  cls ≠ GRU →
  new cls w =
    ({| heap := store (Library.model_init cls (heap w));
        log := log w ++ entries (NewModel cls) (Library.model_init cls (heap w)) |},
     match value (Library.model_init cls (heap w)) with
     | Ok weights => Ok (instance cls weights)
     | Raise e => Raise e
     end).
Proof.
  intros Hcls. destruct cls; try congruence; unfold new; run_lib;
    by destruct (value _).
Qed.

Lemma new_GRU_run (w : World) :
  new GRU w =
    match GRU.__init__ {| heap := heap w; log := log w ++ [Called (NewModel GRU)] |} with
    | (w', Ok self) => (w', Ok (GRU_instance self))
    | (w', Raise e) => (w', Raise e)
    end.
Proof. unfold new. run_lib. reflexivity. Qed.

Lemma appends_ret {A} (a : A) : appends (mret a).
Proof. intros w. exists []. by rewrite app_nil_r. Qed.

Lemma appends_cfg_attr {A} (attr : Config.t → A) : appends (cfg_attr attr).
Proof. intros w. exists []. by rewrite app_nil_r. Qed.

Lemma appends_call {A} (c : Call) (f : Lib A) : appends (call c f).
Proof. intros w. by eexists. Qed.

Lemma appends_bind {A B} (m : M A) (k : A → M B) :
  appends m → (∀ a, appends (k a)) → appends (m ≫= k).
Proof.
  intros Hm Hk w. unfold mbind, M_bind.
  destruct (Hm w) as [added1 H1]. destruct (m w) as [w1 [a | e]]; simpl in *.
  - destruct (Hk a w1) as [added2 H2]. exists (added1 ++ added2).
    by rewrite H2, H1, app_assoc.
  - by exists added1.
Qed.

Lemma GRU_init_appends : appends GRU.__init__.
Proof.
  unfold GRU.__init__, BaseModel___init__, new_InputLayer, new_nn_GRU,
    new_nn_Dropout, get_head.
  repeat first [ apply appends_bind; [| intros ?] | apply appends_call
               | apply appends_cfg_attr | apply appends_ret ].
Qed.

Lemma new_entered (cls : ModelClass) (w : World) :
  ∃ rest, log (new cls w).1 = log w ++ Called (NewModel cls) :: rest.
Proof.
  destruct (decide (cls = GRU)) as [-> | Hcls].
  - rewrite new_GRU_run.
    destruct (GRU_init_appends {| heap := heap w; log := log w ++ [Called (NewModel GRU)] |})
      as [added Hlog].
    destruct (GRU.__init__ _) as [w' [self | e]]; simpl in *;
      exists added; by rewrite Hlog, <- app_assoc.
  - rewrite new_run by done. simpl. by eexists.
Qed.

Lemma new_class (cls : ModelClass) (w w' : World) (model : Model) :
  new cls w = (w', Ok model) → class_of model = cls.
Proof.
  destruct (decide (cls = GRU)) as [-> | Hcls].
  - rewrite new_GRU_run. destruct (GRU.__init__ _) as [w1 [self | e]]; [| discriminate].
    by intros [= _ <-].
  - rewrite new_run by done. destruct (value _); [| discriminate]. by intros [= _ <-].
Qed.

Lemma keeps_ret {A} (a : A) : keeps_configuration (mret a).
Proof. by intros w. Qed.

Lemma keeps_cfg_attr {A} (attr : Config.t → A) : keeps_configuration (cfg_attr attr).
Proof. by intros w. Qed.

Lemma keeps_enter (c : Call) : keeps_configuration (enter c).
Proof. by intros w. Qed.

Lemma keeps_call {A} (c : Call) (f : Lib A) :
  (∀ h, cfg_obj (store (f h)) = cfg_obj h) → keeps_configuration (call c f).
Proof. intros Hf w. apply Hf. Qed.

Lemma keeps_bind {A B} (m : M A) (k : A → M B) :
  keeps_configuration m → (∀ a, keeps_configuration (k a)) →
  keeps_configuration (m ≫= k).
Proof.
  intros Hm Hk w. unfold mbind, M_bind.
  specialize (Hm w). destruct (m w) as [w1 [a | e]]; simpl in *; [| done].
  by rewrite Hk.
Qed.
End LibraryFacts.

(** ** The factory *)

Section LibraryFactory.
Context `{Library.t}.

(** C1, amended. For a configuration whose model identifier is one of the
    supported identifiers and which the frequency check does not refuse,
    [get_model] calls the constructor of the class matched to the
    identifier (after the deprecation warning for ["lstm"]) and gives what
    the constructor gives: when the constructor returns, [get_model]
    returns that object, of the matched class; when the constructor raises,
    [get_model] raises the same exception.  For the classes other than
    [GRU] the constructor is the library call [model_init]; for [GRU] it is
    [__init__]. *)
Theorem get_model_supported (w : World) :
  Config.model (cfg_obj (heap w)) ∈ supported_models →
  ¬ frequency_check_refuses (cfg_obj (heap w)) →
  ∃ cls w0,
    matched_class (Config.model (cfg_obj (heap w))) = Some cls ∧
    w0 = (if String.eqb (Config.model (cfg_obj (heap w))) "lstm"
          then warned_world FutureWarning deprecation_message w else w) ∧
    get_model w = new cls w0 ∧
    (∀ w' model, get_model w = (w', Ok model) → class_of model = cls) ∧
    (cls ≠ GRU →
     (∀ weights, value (Library.model_init cls (heap w)) = Ok weights →
                 (get_model w).2 = Ok (instance cls weights)) ∧
     (∀ e, value (Library.model_init cls (heap w)) = Raise e →
           (get_model w).2 = Raise e)) ∧
    (cls = GRU →
     ∀ w' r, GRU.__init__ {| heap := heap w0; log := log w0 ++ [Called (NewModel GRU)] |}
               = (w', r) →
     get_model w = (w', GRU_instance <$> r)).
Proof.
  intros Hmodel Hfreq. rewrite get_model_run.
  rewrite <- frequency_check_refuses_spec in Hfreq. apply not_true_is_false in Hfreq.
  rewrite Hfreq.
  apply matched_class_supported in Hmodel as [cls Hcls]. rewrite Hcls.
  eexists cls, _. split; [reflexivity |]. split; [reflexivity |].
  assert (heap (if String.eqb (Config.model (cfg_obj (heap w))) "lstm"
                then warned_world FutureWarning deprecation_message w else w) = heap w)
    as Hheap by (by destruct (String.eqb _ _)).
  set (w0 := if String.eqb _ _ then _ else _) in *.
  assert ((if String.eqb (Config.model (cfg_obj (heap w))) "lstm"
           then new cls (warned_world FutureWarning deprecation_message w)
           else new cls w) = new cls w0) as ->.
  { unfold w0. by destruct (String.eqb _ _). }
  split; [reflexivity |]. split; [intros w' model; apply new_class |]. split.
  - intros Hgru. rewrite new_run by done. rewrite Hheap. simpl.
    split; [intros weights -> | intros e ->]; reflexivity.
  - intros -> w' r Hinit. rewrite new_GRU_run, Hinit. by destruct r.
Qed.

(** C3, amended. A configuration whose model identifier is not one of the
    supported identifiers, and which the frequency check does not refuse,
    makes [get_model] raise the [NotImplementedError]
    "... not implemented or not linked in `get_model()`"; nothing was
    logged and no constructor was entered. *)
Theorem get_model_unsupported (w : World) :
  Config.model (cfg_obj (heap w)) ∉ supported_models →
  ¬ frequency_check_refuses (cfg_obj (heap w)) →
  get_model w =
    (w, Raise (NotImplementedError
                 (Config.model (cfg_obj (heap w))
                  +:+ " not implemented or not linked in `get_model()`"))).
Proof.
  intros Hmodel Hfreq. rewrite get_model_run.
  rewrite <- frequency_check_refuses_spec in Hfreq. apply not_true_is_false in Hfreq.
  rewrite Hfreq.
  destruct (matched_class _) as [cls |] eqn:Hcls; [| reflexivity].
  exfalso. apply Hmodel, matched_class_supported. by exists cls.
Qed.

(** C4. The frequency check looks at the identifier as written: when
    [SINGLE_FREQ_MODELS] lists ["customlstm"] and not ["lstm"], a
    configuration with more than one frequency is refused under the name
    ["customlstm"], and under the deprecated name ["lstm"] it passes the
    check: [get_model] warns and calls the constructor of [CustomLSTM] on
    it. *)
Theorem get_model_lstm_skips_frequency_check (w : World) :
  Config.model (cfg_obj (heap w)) = "lstm" →
  "customlstm" ∈ Library.SINGLE_FREQ_MODELS →
  "lstm" ∉ Library.SINGLE_FREQ_MODELS →
  (length (Config.use_frequencies (cfg_obj (heap w))) > 1)%nat →
  get_model (with_model "customlstm" w)
    = (with_model "customlstm" w,
       Raise (ValueError "Model customlstm does not support multiple frequencies.")) ∧
  get_model w = new CustomLSTM (warned_world FutureWarning deprecation_message w) ∧
  ∃ rest,
    log (get_model w).1
      = log w ++ Warn FutureWarning deprecation_message
                 :: Called (NewModel CustomLSTM) :: rest.
Proof.
  intros Hmodel Hcustom Hlstm Hfreq.
  assert (get_model w = new CustomLSTM (warned_world FutureWarning deprecation_message w))
    as Hrun.
  { rewrite get_model_run, Hmodel.
    assert (str_in "lstm" Library.SINGLE_FREQ_MODELS = false) as ->
      by (by apply str_in_false).
    reflexivity. }
  split; [| split; [exact Hrun |]].
  - rewrite get_model_run. simpl.
    assert (str_in "customlstm" Library.SINGLE_FREQ_MODELS = true) as ->
      by (by apply str_in_spec).
    apply Nat.ltb_lt in Hfreq. by rewrite Hfreq.
  - rewrite Hrun.
    destruct (new_entered CustomLSTM (warned_world FutureWarning deprecation_message w))
      as [rest Hlog].
    exists rest. rewrite Hlog. simpl. by rewrite <- app_assoc.
Qed.

(** C8, amended. When [get_model] raises, one of three things happened.
    The frequency check refused the configuration, or the identifier is
    not supported: then the exception is the [ValueError] or the
    [NotImplementedError] of [get_model] itself, raised in the world the
    call started in, before any constructor was entered.  Or the
    configuration passed both tests: then the constructor of the matched
    class was entered and the exception is the one that constructor
    raised. *)
Theorem get_model_fails_before_construction (w w' : World) (e : Exception) :
  get_model w = (w', Raise e) →
  (frequency_check_refuses (cfg_obj (heap w)) ∧ w' = w ∧
   e = ValueError ("Model " +:+ Config.model (cfg_obj (heap w))
                   +:+ " does not support multiple frequencies.")) ∨
  ((Config.model (cfg_obj (heap w)) ∉ supported_models) ∧
   ¬ frequency_check_refuses (cfg_obj (heap w)) ∧ w' = w ∧
   e = NotImplementedError
         (Config.model (cfg_obj (heap w))
          +:+ " not implemented or not linked in `get_model()`")) ∨
  (Config.model (cfg_obj (heap w)) ∈ supported_models ∧
   ¬ frequency_check_refuses (cfg_obj (heap w)) ∧
   ∃ cls w0 rest,
     matched_class (Config.model (cfg_obj (heap w))) = Some cls ∧
     w0 = (if String.eqb (Config.model (cfg_obj (heap w))) "lstm"
           then warned_world FutureWarning deprecation_message w else w) ∧
     new cls w0 = (w', Raise e) ∧
     log w' = log w0 ++ Called (NewModel cls) :: rest).
Proof.
  rewrite get_model_run.
  pose proof (frequency_check_refuses_spec (cfg_obj (heap w))) as Hcheck.
  destruct (str_in _ _ && _).
  - intros [= <- <-]. left. split; [by apply Hcheck | done].
  - assert (¬ frequency_check_refuses (cfg_obj (heap w))) as Hfreq.
    { intros Hrefused. by apply Hcheck in Hrefused. }
    destruct (matched_class _) as [cls |] eqn:Hcls.
    + intros Hnew. right. right.
      split; [apply matched_class_supported; by exists cls |]. split; [done |].
      destruct (String.eqb _ "lstm").
      * destruct (new_entered cls (warned_world FutureWarning deprecation_message w))
          as [rest Hlog].
        rewrite Hnew in Hlog. by eexists cls, _, rest.
      * destruct (new_entered cls w) as [rest Hlog]. rewrite Hnew in Hlog.
        by eexists cls, _, rest.
    + intros [= <- <-]. right. left.
      split; [| done]. rewrite matched_class_supported, Hcls. by intros [? ?].
Qed.

(** X1. [get_model] enters a model constructor exactly when the identifier
    is one of the supported identifiers and the frequency check does not
    refuse the configuration; in particular it returns a model only
    then. *)
Theorem get_model_constructs_iff (w : World) :
  ((∃ cls before rest,
      log (get_model w).1 = log w ++ before ++ Called (NewModel cls) :: rest) ↔
   (Config.model (cfg_obj (heap w)) ∈ supported_models ∧
    ¬ frequency_check_refuses (cfg_obj (heap w)))) ∧
  ((∃ w' model, get_model w = (w', Ok model)) →
   (Config.model (cfg_obj (heap w)) ∈ supported_models ∧
    ¬ frequency_check_refuses (cfg_obj (heap w)))).
Proof.
  rewrite get_model_run. rewrite <- frequency_check_refuses_spec.
  rewrite matched_class_supported.
  assert (∀ (l : list Event) before x rest, l ≠ l ++ before ++ x :: rest) as Hgrow.
  { intros l before x rest Heq. apply (f_equal length) in Heq.
    rewrite !length_app in Heq. simpl in Heq. lia. }
  destruct (str_in _ _ && _).
  - split; [split |].
    + intros (cls & before & rest & Hlog). by apply Hgrow in Hlog.
    + by intros [_ []].
    + intros (w' & model & [=]).
  - destruct (matched_class _) as [cls |].
    + split; [split |]; try (intros _; split; [by eexists | discriminate]).
      intros _. destruct (String.eqb _ "lstm").
      * destruct (new_entered cls (warned_world FutureWarning deprecation_message w))
          as [rest Hlog].
        exists cls, [Warn FutureWarning deprecation_message], rest.
        rewrite Hlog. simpl. by rewrite <- app_assoc.
      * destruct (new_entered cls w) as [rest Hlog].
        exists cls, [], rest. by rewrite Hlog.
    + split; [split |].
      * intros (cls & before & rest & Hlog). by apply Hgrow in Hlog.
      * by intros [[cls [=]] _].
      * intros (w' & model & [=]).
Qed.
(** X3. The only event [get_model] itself adds to the log before it calls
    a model constructor is the [FutureWarning] of the ["lstm"] branch: for
    the identifier ["lstm"], when the frequency check does not refuse the
    configuration, the log gains that warning and then the entry of the
    constructor of [CustomLSTM]; in every other case the log either stays
    as it was or gains the entry of a constructor first.  Whatever else is
    logged, the warnings of the constructors among it, comes after that
    entry. *)
Theorem get_model_own_warning (w : World) :
  (Config.model (cfg_obj (heap w)) = "lstm" ∧
   ¬ frequency_check_refuses (cfg_obj (heap w)) →
   ∃ rest,
     log (get_model w).1
       = log w ++ Warn FutureWarning deprecation_message
                  :: Called (NewModel CustomLSTM) :: rest) ∧
  (Config.model (cfg_obj (heap w)) ≠ "lstm" ∨
   frequency_check_refuses (cfg_obj (heap w)) →
   log (get_model w).1 = log w ∨
   ∃ cls rest, log (get_model w).1 = log w ++ Called (NewModel cls) :: rest).
Proof.
  rewrite get_model_run. rewrite <- frequency_check_refuses_spec.
  destruct (str_in _ _ && _).
  - split; [by intros [_ []] | by left].
  - split.
    + intros [-> _].
      change (matched_class "lstm") with (Some CustomLSTM).
      change (String.eqb "lstm" "lstm") with true. cbv iota.
      destruct (new_entered CustomLSTM (warned_world FutureWarning deprecation_message w))
        as [rest Hlog].
      exists rest. rewrite Hlog. simpl. by rewrite <- app_assoc.
    + intros [Hmodel | ?]; [| done].
      destruct (matched_class _) as [cls |]; [| by left].
      apply String.eqb_neq in Hmodel. rewrite Hmodel.
      destruct (new_entered cls w) as [rest Hlog]. right. by exists cls, rest.
Qed.
End LibraryFactory.

(** ** The constructor of the GRU and the forward pass *)

Section LibraryGRU.
Context `{Library.t}.


Lemma GRU_init_sizes `{!ConstructorsReadOnly} (w w' : World) (self : GRU.t) :
  GRU.__init__ w = (w', Ok self) →
  nn.input_size (GRU.gru self) = InputLayer.output_size (GRU.embedding_net self) ∧
  nn.hidden_size (GRU.gru self) = Config.hidden_size (cfg_obj (heap w)) ∧
  nn.p (GRU.dropout self) = Config.output_dropout (cfg_obj (heap w)) ∧
  Head.n_in (GRU.head self) = Config.hidden_size (cfg_obj (heap w)) ∧
  Head.n_out (GRU.head self) = GRU.output_size self.
Proof.
  unfold GRU.__init__, BaseModel___init__, new_InputLayer, new_nn_GRU,
    new_nn_Dropout, get_head.
  run_lib.
  pose proof (BaseModel_init_keeps (heap w)) as Hbase.
  set (o1 := Library.BaseModel_init (heap w)) in *.
  destruct (value o1) as [base |]; [| discriminate]. simpl.
  pose proof (InputLayer_init_keeps (store o1)) as Hil.
  set (o2 := Library.InputLayer_init (store o1)) in *.
  destruct (value o2) as [embedding_net |]; [| discriminate]. simpl.
  rewrite Hbase in Hil. rewrite Hil.
  pose proof (nn_GRU_init_keeps (InputLayer.output_size embedding_net)
                (Config.hidden_size (cfg_obj (heap w))) (store o2)) as Hgru.
  set (o3 := Library.nn_GRU_init _ _ (store o2)) in *.
  destruct (value o3) as [gru_weights |]; [| discriminate]. simpl.
  rewrite Hil in Hgru. rewrite Hgru.
  pose proof (nn_Dropout_init_keeps (Config.output_dropout (cfg_obj (heap w)))
                (store o3)) as Hdrop.
  set (o4 := Library.nn_Dropout_init _ (store o3)) in *.
  destruct (value o4) as [[] |]; [| discriminate]. simpl.
  rewrite Hgru in Hdrop. rewrite Hdrop.
  destruct (value (Library.get_head_init _ _ (store o4))) as [head_weights |];
    [| discriminate]. simpl.
  by intros [= _ <-].
Qed.


(** C5, amended. [forward] makes its calls in one fixed order, each on the
    result of the previous one and in the store the previous one left: the
    input layer on [data] with [concatenate_output=True], the recurrent
    core, dropout on the transposed output of the core, the head.  When a
    call raises, [forward] raises that exception and makes no later call.
    When all four return, the log has gained these four calls (each
    followed by the warnings it emitted) and nothing else, and [forward]
    returns the mapping that has, under every key of the head's mapping,
    the head's value, and under ['h_n'], when the head has no such key, the
    transposed final hidden state of the core; it has no other key. *)
Theorem forward_pipeline (self : GRU.t) (data : gmap string DataValue) (w : World) :
  let o1 := Library.InputLayer_forward (GRU.embedding_net self) data true (heap w) in
  match value o1 with
  | Raise e =>
      GRU.forward self data w =
        ({| heap := store o1; log := log w ++ entries (EmbeddingNet data true) o1 |},
         Raise e)
  | Ok x_d =>
      let o2 := Library.nn_GRU_forward (GRU.gru self) x_d (store o1) in
      match value o2 with
      | Raise e =>
          GRU.forward self data w =
            ({| heap := store o2;
                log := log w ++ entries (EmbeddingNet data true) o1
                             ++ entries (RunGRU x_d) o2 |},
             Raise e)
      | Ok (gru_output, h_n) =>
          let o3 := Library.nn_Dropout_forward (GRU.dropout self)
                      (transpose 0 1 gru_output) (store o2) in
          match value o3 with
          | Raise e =>
              GRU.forward self data w =
                ({| heap := store o3;
                    log := log w ++ entries (EmbeddingNet data true) o1
                                 ++ entries (RunGRU x_d) o2
                                 ++ entries (RunDropout (transpose 0 1 gru_output)) o3 |},
                 Raise e)
          | Ok x =>
              let o4 := Library.Head_forward (GRU.head self) x (store o3) in
              let w' :=
                {| heap := store o4;
                   log := log w ++ entries (EmbeddingNet data true) o1
                                ++ entries (RunGRU x_d) o2
                                ++ entries (RunDropout (transpose 0 1 gru_output)) o3
                                ++ entries (RunHead x) o4 |} in
              match value o4 with
              | Raise e => GRU.forward self data w = (w', Raise e)
              | Ok other =>
                  ∃ pred,
                    GRU.forward self data w = (w', Ok pred) ∧
                    ∀ key,
                      pred !! key =
                        match other !! key with
                        | Some v => Some v
                        | None => if decide (key = "h_n")
                                  then Some (transpose 0 1 h_n) else None
                        end
              end
          end
      end
  end.
Proof.
  unfold GRU.forward. run_lib.
  destruct (value (Library.InputLayer_forward _ _ _ _)) as [x_d | e]; [| reflexivity].
  destruct (value (Library.nn_GRU_forward _ _ _)) as [[gru_output h_n] | e]; simpl;
    [| by rewrite <- !app_assoc].
  destruct (value (Library.nn_Dropout_forward _ _ _)) as [x | e]; simpl;
    [| by rewrite <- !app_assoc].
  destruct (value (Library.Head_forward _ _ _)) as [other | e]; simpl;
    [| by rewrite <- !app_assoc].
  eexists. split; [by rewrite <- !app_assoc |].
  intros key. unfold dict_update.
  destruct (other !! key) as [v |] eqn:Hkey.
  - by apply lookup_union_Some_l.
  - rewrite lookup_union_r by done. case_decide as Hh_n.
    + subst key. apply lookup_singleton_eq.
    + by apply lookup_singleton_ne.
Qed.
(** X12. The constructor of [GRU] calls the constructor of the base class
    and the constructors of its four sub-modules one after the other, each
    in the store the previous one left, and stops at the first that raises:
    it raises that exception and calls no later constructor.  The widths
    and the rate are the values the configuration has when the statement
    that reads them runs.  When all five return, the object has the
    attributes of the base class and the four sub-modules. *)
Theorem GRU_init_pipeline (w : World) :
  let o1 := Library.BaseModel_init (heap w) in
  match value o1 with
  | Raise e =>
      GRU.__init__ w =
        ({| heap := store o1; log := log w ++ entries BaseModelInit o1 |}, Raise e)
  | Ok base =>
      let o2 := Library.InputLayer_init (store o1) in
      match value o2 with
      | Raise e =>
          GRU.__init__ w =
            ({| heap := store o2;
                log := log w ++ entries BaseModelInit o1 ++ entries NewInputLayer o2 |},
             Raise e)
      | Ok embedding_net =>
          let input_size := InputLayer.output_size embedding_net in
          let hidden_size := Config.hidden_size (cfg_obj (store o2)) in
          let o3 := Library.nn_GRU_init input_size hidden_size (store o2) in
          match value o3 with
          | Raise e =>
              GRU.__init__ w =
                ({| heap := store o3;
                    log := log w ++ entries BaseModelInit o1 ++ entries NewInputLayer o2
                                 ++ entries (NewGRU input_size hidden_size) o3 |},
                 Raise e)
          | Ok gru_weights =>
              let p := Config.output_dropout (cfg_obj (store o3)) in
              let o4 := Library.nn_Dropout_init p (store o3) in
              match value o4 with
              | Raise e =>
                  GRU.__init__ w =
                    ({| heap := store o4;
                        log := log w ++ entries BaseModelInit o1
                                     ++ entries NewInputLayer o2
                                     ++ entries (NewGRU input_size hidden_size) o3
                                     ++ entries (NewDropout p) o4 |},
                     Raise e)
              | Ok _ =>
                  let n_in := Config.hidden_size (cfg_obj (store o4)) in
                  let n_out := BaseModel.output_size base in
                  let o5 := Library.get_head_init n_in n_out (store o4) in
                  let w' :=
                    {| heap := store o5;
                       log := log w ++ entries BaseModelInit o1
                                    ++ entries NewInputLayer o2
                                    ++ entries (NewGRU input_size hidden_size) o3
                                    ++ entries (NewDropout p) o4
                                    ++ entries (GetHead n_in n_out) o5 |} in
                  match value o5 with
                  | Raise e => GRU.__init__ w = (w', Raise e)
                  | Ok head_weights =>
                      GRU.__init__ w =
                        (w', Ok {| GRU.base := base;
                                   GRU.embedding_net := embedding_net;
                                   GRU.gru := nn.mkGRU input_size hidden_size gru_weights;
                                   GRU.dropout := nn.mkDropout p;
                                   GRU.head := Head.mk n_in n_out head_weights |})
                  end
              end
          end
      end
  end.
Proof.
  unfold GRU.__init__, BaseModel___init__, new_InputLayer, new_nn_GRU,
    new_nn_Dropout, get_head.
  run_lib.
  destruct (value (Library.BaseModel_init _)) as [base | e]; [| reflexivity]. simpl.
  destruct (value (Library.InputLayer_init _)) as [embedding_net | e]; simpl;
    [| by rewrite <- !app_assoc].
  destruct (value (Library.nn_GRU_init _ _ _)) as [gru_weights | e]; simpl;
    [| by rewrite <- !app_assoc].
  destruct (value (Library.nn_Dropout_init _ _)) as [[] | e]; simpl;
    [| by rewrite <- !app_assoc].
  destruct (value (Library.get_head_init _ _ _)) as [head_weights | e]; simpl;
    by rewrite <- !app_assoc.
Qed.

(** X9. The factory and the constructor compose: when [get_model] returns
    for the identifier ["gru"], the object is a [GRU] object, built by
    [GRU.__init__] right after the entry of the constructor was logged, and
    its sub-modules have the widths and the dropout rate of the
    configuration [get_model] was called with.  The constructors of the
    sub-modules are assumed to leave the configuration as it is. *)
Theorem get_model_gru_object `{!ConstructorsReadOnly} (w w' : World) (model : Model) :
  Config.model (cfg_obj (heap w)) = "gru" →
  get_model w = (w', Ok model) →
  ∃ self,
    model = GRU_instance self ∧
    GRU.__init__ {| heap := heap w; log := log w ++ [Called (NewModel GRU)] |}
      = (w', Ok self) ∧
    nn.input_size (GRU.gru self) = InputLayer.output_size (GRU.embedding_net self) ∧
    nn.hidden_size (GRU.gru self) = Config.hidden_size (cfg_obj (heap w)) ∧
    nn.p (GRU.dropout self) = Config.output_dropout (cfg_obj (heap w)) ∧
    Head.n_in (GRU.head self) = Config.hidden_size (cfg_obj (heap w)) ∧
    Head.n_out (GRU.head self) = GRU.output_size self.
Proof.
  intros Hmodel. rewrite get_model_run, Hmodel.
  destruct (str_in _ _ && _); [discriminate |].
  change (matched_class "gru") with (Some GRU). change (String.eqb "gru" "lstm") with false.
  cbv iota. rewrite new_GRU_run.
  destruct (GRU.__init__ _) as [w1 [self | e]] eqn:Hinit; [| discriminate].
  intros [= <- <-]. exists self. split; [reflexivity |]. split; [reflexivity |].
  exact (GRU_init_sizes _ _ _ Hinit).
Qed.

Lemma GRU_init_keeps `{!ConstructorsReadOnly} `{!FactoryReadOnly} :
  keeps_configuration GRU.__init__.
Proof.
  unfold GRU.__init__, BaseModel___init__, new_InputLayer, new_nn_GRU,
    new_nn_Dropout, get_head.
  repeat first [ apply keeps_bind; [| intros ?] | apply keeps_cfg_attr | apply keeps_ret
               | apply keeps_call ].
  - apply BaseModel_init_keeps.
  - apply InputLayer_init_keeps.
  - apply nn_GRU_init_keeps.
  - apply nn_Dropout_init_keeps.
  - apply get_head_init_keeps.
Qed.

Lemma new_keeps `{!ConstructorsReadOnly} `{!FactoryReadOnly} (cls : ModelClass) :
  keeps_configuration (new cls).
Proof.
  destruct (decide (cls = GRU)) as [-> | Hcls].
  - unfold new. apply keeps_bind; [apply keeps_enter | intros _].
    apply keeps_bind; [apply GRU_init_keeps | intros self; apply keeps_ret].
  - intros w. rewrite new_run by done. apply model_init_keeps.
Qed.

(** X11. For every library whose constructors leave the configuration as
    it is, the configuration object is the same after [get_model] as
    before it, and the same after the constructor of [GRU] as before it,
    also when a constructor raised and the call ended in an exception. *)
Theorem get_model_never_writes_configuration
    `{!ConstructorsReadOnly} `{!FactoryReadOnly} (w : World) :
  cfg_obj (heap (get_model w).1) = cfg_obj (heap w) ∧
  cfg_obj (heap (GRU.__init__ w).1) = cfg_obj (heap w).
Proof.
  split; [| apply GRU_init_keeps].
  rewrite get_model_run.
  destruct (str_in _ _ && _); [reflexivity |].
  destruct (matched_class _) as [cls |]; [| reflexivity].
  destruct (String.eqb _ "lstm"); [| apply new_keeps].
  apply (new_keeps cls (warned_world FutureWarning deprecation_message w)).
Qed.
End LibraryGRU.

(** ** The statements on the sample libraries *)

Lemma sample_constructors_read_only single_freq_models extra :
  @ConstructorsReadOnly shapes_only (sample_library single_freq_models extra).
Proof. by constructor. Qed.

Lemma frequency_check_refuses_returning `{Externals} (cfg : Config.t) :
  frequency_check_refuses cfg ↔ multiple_frequencies_refused cfg.
Proof. reflexivity. Qed.

Lemma frequency_check_passes_not_listed `{Library.t} (cfg : Config.t) :
  str_in (Config.model cfg) Library.SINGLE_FREQ_MODELS = false →
  ¬ frequency_check_refuses cfg.
Proof. intros Hin [Hlisted _]. apply str_in_false in Hin. by apply Hin. Qed.

Lemma get_model_supported_witness :
  Config.model sample_cfg ∈ supported_models ∧
  ¬ @frequency_check_refuses shapes_only sample_zoo sample_cfg ∧
  (@get_model shapes_only sample_zoo (start sample_cfg)).2
    = Ok (@instance shapes_only MTSLSTM tt).
Proof.
  assert (Config.model sample_cfg ∈ supported_models) as Hmodel.
  { by apply str_in_spec. }
  assert (¬ @frequency_check_refuses shapes_only sample_zoo sample_cfg) as Hfreq.
  { by apply frequency_check_passes_not_listed. }
  split; [exact Hmodel |]. split; [exact Hfreq |].
  destruct (@get_model_supported shapes_only sample_zoo (start sample_cfg) Hmodel Hfreq)
    as (cls & w0 & Hcls & _ & _ & _ & Hother & _).
  vm_compute in Hcls. injection Hcls as <-.
  destruct (Hother ltac:(discriminate)) as [Hreturns _].
  exact (Hreturns tt eq_refl).
Defined.

(** A supported identifier that the frequency check refuses: the sample
    configuration with the model ["gru"] and its two frequencies. *)
Lemma get_model_supported_counterexample :
  Config.model (Config.with_model "gru" sample_cfg) ∈ supported_models ∧
  @get_model shapes_only sample_zoo (start (Config.with_model "gru" sample_cfg))
    = (start (Config.with_model "gru" sample_cfg),
       Raise (ValueError "Model gru does not support multiple frequencies.")) ∧
  ¬ ∃ w' model,
      @get_model shapes_only sample_zoo (start (Config.with_model "gru" sample_cfg))
        = (w', Ok model).
Proof.
  split; [by apply str_in_spec |]. split; [by vm_compute |].
  intros (w' & model & Hreturns). vm_compute in Hreturns. discriminate.
Qed.

Lemma get_model_unsupported_witness :
  ("transformer" ∉ supported_models) ∧
  ¬ @frequency_check_refuses shapes_only sample_zoo
      (Config.with_model "transformer" sample_cfg) ∧
  @get_model shapes_only sample_zoo (start (Config.with_model "transformer" sample_cfg))
    = (start (Config.with_model "transformer" sample_cfg),
       Raise (NotImplementedError
                "transformer not implemented or not linked in `get_model()`")).
Proof.
  assert ("transformer" ∉ supported_models) as Hmodel.
  { by apply str_in_false. }
  assert (¬ @frequency_check_refuses shapes_only sample_zoo
              (Config.with_model "transformer" sample_cfg)) as Hfreq.
  { by apply frequency_check_passes_not_listed. }
  split; [exact Hmodel |]. split; [exact Hfreq |].
  exact (@get_model_unsupported shapes_only sample_zoo
           (start (Config.with_model "transformer" sample_cfg)) Hmodel Hfreq).
Defined.

(** An identifier without a branch that [SINGLE_FREQ_MODELS] lists, on a
    configuration with two frequencies: the frequency check comes first. *)
Lemma get_model_unsupported_counterexample :
  ("transformer" ∉ supported_models) ∧
  @get_model shapes_only (sample_library single_freq_with_transformer None)
      (start (Config.with_model "transformer" sample_cfg))
    = (start (Config.with_model "transformer" sample_cfg),
       Raise (ValueError "Model transformer does not support multiple frequencies.")).
Proof. split; [by apply str_in_false | by vm_compute]. Qed.

Lemma get_model_lstm_skips_frequency_check_witness :
  Config.model (Config.with_model "lstm" sample_cfg) = "lstm" ∧
  "customlstm" ∈ single_freq_current ∧
  ("lstm" ∉ single_freq_current) ∧
  (length (Config.use_frequencies (Config.with_model "lstm" sample_cfg)) > 1)%nat ∧
  @get_model shapes_only sample_zoo
      (with_model "customlstm" (start (Config.with_model "lstm" sample_cfg)))
    = (with_model "customlstm" (start (Config.with_model "lstm" sample_cfg)),
       Raise (ValueError "Model customlstm does not support multiple frequencies.")) ∧
  @get_model shapes_only sample_zoo (start (Config.with_model "lstm" sample_cfg))
    = @new shapes_only sample_zoo CustomLSTM
        (warned_world FutureWarning deprecation_message
           (start (Config.with_model "lstm" sample_cfg))) ∧
  ∃ rest,
    log (@get_model shapes_only sample_zoo
           (start (Config.with_model "lstm" sample_cfg))).1
      = [] ++ Warn FutureWarning deprecation_message
              :: Called (NewModel CustomLSTM) :: rest.
Proof.
  assert ("customlstm" ∈ single_freq_current) as Hcustom.
  { by apply str_in_spec. }
  assert ("lstm" ∉ single_freq_current) as Hlstm.
  { by apply str_in_false. }
  split; [reflexivity |]. split; [exact Hcustom |]. split; [exact Hlstm |].
  split; [simpl; lia |].
  exact (@get_model_lstm_skips_frequency_check shapes_only sample_zoo
           (start (Config.with_model "lstm" sample_cfg)) eq_refl Hcustom Hlstm
           ltac:(simpl; lia)).
Defined.

(** A batch with an empty sequence: the recurrent core raises, and neither
    dropout nor the head is called. *)
Lemma forward_pipeline_counterexample :
  ∃ e,
    @GRU.forward shapes_only fallible_library sample_GRU empty_sequence_batch
        (start gru_cfg)
      = (@mkWorld shapes_only (@mkHeap shapes_only gru_cfg 0%nat)
           [Called (EmbeddingNet empty_sequence_batch true);
            Called (@RunGRU shapes_only [0; 256; 4]%nat)],
         Raise e).
Proof. eexists. vm_compute. reflexivity. Qed.



Lemma get_model_fails_before_construction_witness :
  @get_model shapes_only sample_zoo (start (Config.with_model "gru" sample_cfg))
    = (start (Config.with_model "gru" sample_cfg),
       Raise (ValueError "Model gru does not support multiple frequencies.")) ∧
  @frequency_check_refuses shapes_only sample_zoo (Config.with_model "gru" sample_cfg).
Proof.
  assert (@get_model shapes_only sample_zoo (start (Config.with_model "gru" sample_cfg))
          = (start (Config.with_model "gru" sample_cfg),
             Raise (ValueError "Model gru does not support multiple frequencies.")))
    as Hraises.
  { by vm_compute. }
  split; [exact Hraises |].
  destruct (@get_model_fails_before_construction shapes_only sample_zoo _ _ _ Hraises)
    as [[Hrefused _] | [(_ & _ & _ & [=]) | (_ & Hpasses & _)]].
  - exact Hrefused.
  - exfalso. apply Hpasses. by apply frequency_check_refuses_spec.
Defined.

(** MTS-LSTM on a single frequency: the [ValueError] comes from the
    constructor, after it was entered. *)
Lemma get_model_fails_before_construction_counterexample :
  ∃ msg,
    @get_model shapes_only fallible_library (start mtslstm_daily_cfg)
      = (@mkWorld shapes_only (@mkHeap shapes_only mtslstm_daily_cfg 0%nat)
           [Called (NewModel MTSLSTM)],
         Raise (ValueError msg)).
Proof. eexists. vm_compute. reflexivity. Qed.

Lemma get_model_gru_object_witness :
  @ConstructorsReadOnly shapes_only sample_zoo ∧
  Config.model gru_cfg = "gru" ∧
  @get_model shapes_only sample_zoo (start gru_cfg)
    = (@mkWorld shapes_only (@mkHeap shapes_only gru_cfg 3%nat)
         [Called (NewModel GRU); Called BaseModelInit; Called NewInputLayer;
          Called (NewGRU 4 16); Called (NewDropout 0x1.999999999999ap-2%float);
          Called (GetHead 16 1)],
       Ok (GRU_instance sample_GRU)) ∧
  ∃ self,
    GRU_instance sample_GRU = GRU_instance self ∧
    @GRU.__init__ shapes_only sample_zoo
        (@mkWorld shapes_only (@mkHeap shapes_only gru_cfg 0%nat) ([] ++ [Called (NewModel GRU)]))
      = (@mkWorld shapes_only (@mkHeap shapes_only gru_cfg 3%nat)
           [Called (NewModel GRU); Called BaseModelInit; Called NewInputLayer;
            Called (NewGRU 4 16); Called (NewDropout 0x1.999999999999ap-2%float);
            Called (GetHead 16 1)],
         Ok self) ∧
    nn.input_size (GRU.gru self) = InputLayer.output_size (GRU.embedding_net self) ∧
    nn.hidden_size (GRU.gru self) = 16%Z ∧
    nn.p (GRU.dropout self) = 0x1.999999999999ap-2%float ∧
    Head.n_in (GRU.head self) = 16%Z ∧
    Head.n_out (GRU.head self) = GRU.output_size self.
Proof.
  split; [exact (sample_constructors_read_only single_freq_current None) |].
  split; [reflexivity |].
  split; [exact gru_cfg_model |].
  exact (@get_model_gru_object shapes_only sample_zoo
           (sample_constructors_read_only single_freq_current None)
           (start gru_cfg) _ _ eq_refl gru_cfg_model).
Defined.

Lemma fallible_constructors_read_only : @ConstructorsReadOnly shapes_only fallible_library.
Proof. by constructor. Qed.

Lemma fallible_factory_read_only : @FactoryReadOnly shapes_only fallible_library.
Proof.
  constructor; [| done].
  intros cls h. destruct cls; try reflexivity.
  simpl. unfold fallible_model_init. by destruct (_ <? _)%nat.
Qed.

Lemma get_model_never_writes_configuration_witness :
  @ConstructorsReadOnly shapes_only fallible_library ∧
  @FactoryReadOnly shapes_only fallible_library ∧
  cfg_obj (heap (@get_model shapes_only fallible_library (start mtslstm_daily_cfg)).1)
    = mtslstm_daily_cfg ∧
  cfg_obj (heap (@GRU.__init__ shapes_only fallible_library (start mtslstm_daily_cfg)).1)
    = mtslstm_daily_cfg.
Proof.
  split; [exact fallible_constructors_read_only |].
  split; [exact fallible_factory_read_only |].
  exact (@get_model_never_writes_configuration shapes_only fallible_library
           fallible_constructors_read_only fallible_factory_read_only
           (start mtslstm_daily_cfg)).
Defined.

(** ** Runs of the sample library whose calls can fail *)

Example EmbCudaLSTM_warns :
  log (@get_model shapes_only fallible_library
         (start (Config.with_use_frequencies ["1D"]
                   (Config.with_model "embcudalstm" sample_cfg)))).1
    = [Called (NewModel EmbCudaLSTM);
       Warn FutureWarning "EmbCudaLSTM is deprecated, use CudaLSTM"].
Proof. vm_compute. reflexivity. Qed.

Example MTSLSTM_two_frequencies :
  (@get_model shapes_only fallible_library (start sample_cfg)).2
    = Ok (@instance shapes_only MTSLSTM tt).
Proof. vm_compute. reflexivity. Qed.
